(** * The course notebooks as monadic programs

    The repository holds three Jupyter notebooks (the OpenAI basics notebook,
    the tool-calling notebook and the RAG notebook) and a syllabus.  Each
    notebook is embedded as a program in a small state-and-exception monad:
    the code the notebook itself contains is written out as Rocq definitions,
    while every third-party component it calls (OpenAI client, LangChain,
    Chroma, numpy, tiktoken, python-dotenv) is a field of a class of
    oracles, so that every statement below holds for all behaviours of those
    components.  Every call to such a component is recorded, in order, in the
    state of the monad. *)

From Stdlib Require Import Floats.
From Stdlib Require Import Reals Lra.
From stdpp Require Import base gmap strings list pretty.

Local Open Scope string_scope.
Local Open Scope list_scope.
Local Open Scope stdpp_scope.

(** ** Python primitives used by the notebooks *)

Module Py.

(** A Python [str] is a sequence of characters; one [Ascii.ascii] stands for one
    character. *)
Fixpoint str_take (n : nat) (s : string) : string :=
  match n, s with
  | S n', String c s' => String c (str_take n' s')
  | _, _ => ""
  end.

Fixpoint str_drop (n : nat) (s : string) : string :=
  match n, s with
  | S n', String _ s' => str_drop n' s'
  | _, _ => s
  end.

(** [s[:n]] *)
Definition slice_to (n : nat) (s : string) : string := str_take n s.

(** [s[-n:]] for a positive literal [n]: the start index is
    [max (len s - n) 0]. *)
Definition slice_last (n : nat) (s : string) : string :=
  str_drop (String.length s - n) s.

(** Truth value of an [Optional[str]] in [if x:]: [None] and the empty
    string are false. *)
Definition truthy (o : option string) : bool :=
  match o with
  | Some (String _ _) => true
  | _ => false
  end.

(** [str.lower] on the ASCII letters (other characters are unchanged). *)
Definition lower_char (c : Ascii.ascii) : Ascii.ascii :=
  let n := Ascii.nat_of_ascii c in
  if (65 <=? n)%nat && (n <=? 90)%nat then Ascii.ascii_of_nat (n + 32) else c.

Fixpoint lower (s : string) : string :=
  match s with
  | "" => ""
  | String c s' => String (lower_char c) (lower s')
  end.

(** [sep.join(parts)] *)
Fixpoint join (sep : string) (parts : list string) : string :=
  match parts with
  | [] => ""
  | [p] => p
  | p :: rest => p +:+ sep +:+ join sep rest
  end.

(** [needle in haystack] on strings *)
Fixpoint str_prefix (p s : string) : bool :=
  match p, s with
  | "", _ => true
  | String a p', String b s' => if decide (a = b) then str_prefix p' s' else false
  | _, _ => false
  end.

Fixpoint str_contains (needle haystack : string) : bool :=
  str_prefix needle haystack ||
  match haystack with
  | "" => false
  | String _ rest => str_contains needle rest
  end.

End Py.

(** ** Data exchanged with the frameworks *)

(** The exceptions that can end a cell: the two raised by the notebooks' own
    subscripts, and whatever a third-party call raises. *)
Inductive exn :=
  | KeyError (key : string)
  | IndexError
  | Raised (what : string).

(** One entry of [result.tool_calls]: a dict with keys "name", "args", "id". *)
Record tool_call := ToolCall {
  tc_name : string;
  tc_args : gmap string string;
  tc_id : string
}.

(** What a chat model answers: text and the tool calls it asks for. *)
Record ai_message := AiMessage {
  ai_content : string;
  ai_tool_calls : list tool_call
}.

(** LangChain chat messages, as far as the notebooks build or inspect them. *)
Inductive message :=
  | HumanMessage (content : string)
  | AIMessage (m : ai_message)
  | ToolMessage (content : string) (tool_call_id : string).

Definition is_tool_message (m : message) : bool :=
  match m with
  | ToolMessage _ _ => true
  | _ => false
  end.

(** The two forms of input the notebooks pass to [invoke] of a chat model. *)
Inductive chat_input :=
  | Text (s : string)
  | Messages (ms : list message).

(** A LangChain [Document]: the notebooks only read [page_content]. *)
Record document := Document {
  page_content : string;
  metadata : list (string * string)
}.

(** Result of numpy's division where vectors and scalars are idealised as
    real numbers; dividing by zero raises nothing in numpy: it warns and
    yields nan or an infinity, which is not a real number.  The float64
    values are those of [Float64] below. *)
Inductive quotient :=
  | Quot (r : R)
  | DivByZero (dividend : R).

Definition np_divide (x y : R) : quotient :=
  if Req_dec_T y 0 then DivByZero x else Quot (x / y).

(** The line feed of the notebooks' string literals. *)
Definition nl : string := String (Ascii.ascii_of_nat 10) "".

(** ** The notebook monad *)

(** What a recorded call carried: the notebook data passed in or returned.
    Configuration constants and opaque framework objects are [PUnit]. *)
Inductive payload :=
  | PUnit
  | PStr (s : string)
  | POpt (o : option string)
  | PStrs (l : list string)
  | PArgs (a : gmap string string)
  | PMsg (m : message)
  | PMsgs (ms : list message)
  | PDocs (ds : list document)
  | PNum (r : R)
  | PVec (v : list R)
  | PVecs (v1 v2 : list R)
  | PNat (n : nat)
  | PExn (e : exn).

(** Which OpenAI key a call authenticates with, when it needs one. *)
Inductive key_use :=
  | NoKey
  | UsesKey (k : option string).

Record event := Event {
  callee : string;
  arg : payload;
  res : payload;
  key : key_use
}.

Record nbstate := NbState {
  environ : gmap string string;   (* os.environ of the kernel process *)
  calls : list event;             (* third-party calls issued so far *)
  stdout : list string;           (* lines printed so far *)
  messages : list message         (* the list bound to [messages] *)
}.

Definition NB (A : Type) : Type := nbstate -> nbstate * (exn + A).

#[global] Instance nb_ret : MRet NB := fun A a s => (s, inr a).

(** Sequencing: the state a failing command leaves behind is kept, as an
    exception does not undo the mutations made before it. *)
#[global] Instance nb_bind : MBind NB := fun A B k c s =>
  match c s with
  | (s', inr a) => k a s'
  | (s', inl e) => (s', inl e)
  end.

Definition raise {A} (e : exn) : NB A := fun s => (s, inl e).

Definition show_result {A} (show : A -> payload) (r : exn + A) : payload :=
  match r with
  | inr a => show a
  | inl e => PExn e
  end.

(** A call into a third-party component: it is recorded together with its
    outcome, and an exception it raises propagates. *)
Definition ext {A} (name : string) (a : payload) (show : A -> payload)
    (r : exn + A) : NB A :=
  fun s => (NbState (environ s) (calls s ++ [Event name a (show_result show r) NoKey])
                    (stdout s) (messages s), r).

(** The key an OpenAI client authenticates with: the [api_key] argument when
    one is passed, the environment variable otherwise. *)
Definition resolve_key (explicit : option string) (env : gmap string string) :
    option string :=
  match explicit with
  | Some k => Some k
  | None => env !! "OPENAI_API_KEY"
  end.

(** A call that creates or uses an OpenAI client. *)
Definition ext_openai {A} (name : string) (explicit : option string) (a : payload)
    (show : A -> payload) (r : exn + A) : NB A :=
  fun s => (NbState (environ s)
                    (calls s ++ [Event name a (show_result show r)
                                       (UsesKey (resolve_key explicit (environ s)))])
                    (stdout s) (messages s), r).

(** [print(line)] *)
Definition print (line : string) : NB unit :=
  fun s => (NbState (environ s) (calls s) (stdout s ++ [line]) (messages s), inr tt).

(** [os.getenv(name)] *)
Definition os_getenv (name : string) : NB (option string) :=
  fun s => (NbState (environ s)
                    (calls s ++ [Event "os.getenv" (PStr name) (POpt (environ s !! name)) NoKey])
                    (stdout s) (messages s), inr (environ s !! name)).

(** The dict python-dotenv builds from the bindings of the .env file, read
    from top to bottom: a name bound more than once keeps its last value. *)
Definition dotenv_values (file : list (string * string)) : gmap string string :=
  foldl (fun d kv => <[kv.1 := kv.2]> d) ∅ file.

(** [load_dotenv()] of python-dotenv with its default [override=False]: each
    name of that dict that the process does not define yet is defined; a
    variable of the process is never overridden. *)
Definition dotenv_apply (file : list (string * string)) (env : gmap string string) :
    gmap string string :=
  env ∪ dotenv_values file.

Definition load_dotenv (file : list (string * string)) : NB unit :=
  fun s => (NbState (dotenv_apply file (environ s))
                    (calls s ++ [Event "load_dotenv" PUnit PUnit NoKey])
                    (stdout s) (messages s), inr tt).

(** [seq[0]] *)
Definition first {A} (l : list A) : NB A :=
  match l with
  | x :: _ => mret x
  | [] => raise IndexError
  end.

(** [d[key]] on a dict *)
Definition getitem {V} (d : gmap string V) (k : string) : NB V :=
  match d !! k with
  | Some v => mret v
  | None => raise (KeyError k)
  end.

(** [for x in xs: body] *)
Fixpoint for_each {A} (xs : list A) (body : A -> NB unit) : NB unit :=
  match xs with
  | [] => mret tt
  | x :: rest => body x;; for_each rest body
  end.

(** The list bound to the notebook variable [messages]. *)
Definition set_messages (ms : list message) : NB unit :=
  fun s => (NbState (environ s) (calls s) (stdout s) ms, inr tt).

Definition get_messages : NB (list message) :=
  fun s => (s, inr (messages s)).

(** [messages.append(m)] *)
Definition append_message (m : message) : NB unit :=
  fun s => (NbState (environ s) (calls s) (stdout s) (messages s ++ [m]), inr tt).

(** The kernel of a notebook when its first cell starts. *)
Definition fresh (env : gmap string string) : nbstate := NbState env [] [] [].

(** The names of the calls a run issued. *)
Definition callees (s : nbstate) : list string := callee <$> calls s.

(** The keys the OpenAI calls of a run used. *)
Definition keys_used (s : nbstate) : list (option string) :=
  omap (fun ev => match key ev with UsesKey k => Some k | NoKey => None end) (calls s).

(** ** The basics notebook (langchain/1_Basics/1-openai-code.ipynb) *)

Module Basics.

Record chat_completion := ChatCompletion {
  choices : list string    (* [choices[i].message.content] *)
}.

Class World := {
  getcwd : string;
  dotenv_file : list (string * string);
  chat_completions_create :
    string -> list (string * string) -> exn + chat_completion;
  model_dump : chat_completion -> exn + string
}.

(** The text the startup check prints for a key. *)
Definition api_key_report (api_key : option string) : string :=
  if Py.truthy api_key then
    match api_key with
    | Some k => "API key found: " +:+ (Py.slice_to 4 k +:+ "..." +:+ Py.slice_last 4 k)
    | None => "No API key found"   (* not reached: None is false *)
    end
  else "No API key found".

Section Notebook.
Context {W : World}.

Definition cell_startup : NB (option string) :=
  cwd ← ext "os.getcwd" PUnit PStr (inr getcwd);
  print ("Current working directory: " +:+ cwd);;
  load_dotenv dotenv_file;;
  api_key ← os_getenv "OPENAI_API_KEY";
  print (api_key_report api_key);;
  mret api_key.

Definition request_model : string := "gpt-4o-mini".

Definition request_messages : list (string * string) :=
  [ ("system", "You are a helpful assistant specialized in providing information about BellaVista Italian Restaurant.");
    ("user", "What's on the menu?");
    ("assistant", "BellaVista offers a variety of Italian dishes including pasta, pizza, and seafood.");
    ("user", "Do you have vegan options?") ].

Definition cell_request : NB chat_completion :=
  ext_openai "openai.chat.completions.create" None
    (PStrs (snd <$> request_messages)) (fun r => PStrs (choices r))
    (chat_completions_create request_model request_messages).

Definition cell_dump (response : chat_completion) : NB string :=
  ext "response.model_dump" PUnit PStr (model_dump response).

Definition cell_print (response : chat_completion) : NB unit :=
  content ← first (choices response);
  print content.

Definition notebook : NB unit :=
  cell_startup;;
  response ← cell_request;
  cell_dump response;;
  cell_print response.

End Notebook.

End Basics.

(** ** The tool-calling notebook (langchain/6_Tools/1_tools_basics.ipynb) *)

Module Tools.

(** The two functions the notebook defines under [@tool]. *)
Definition fake_weather_api (city : string) : string := "Sunny, 22°C".

Definition outdoor_seating_availability (city : string) : string :=
  "Outdoor seating is available.".

(** A tool object as [@tool] builds it from a function: its name is the
    function's. *)
Record tool := Tool {
  tool_name : string;
  tool_func : string -> string
}.

(** One turn of the agent's model: a final answer, or a tool to run. *)
Inductive agent_step :=
  | AgentFinish (output : string)
  | AgentAction (tool : string) (tool_input : string).

(** What [agent.invoke] returns: the output, and the action and observation
    of every iteration that ran a tool. *)
Record agent_run := AgentRun {
  run_output : string;
  intermediate_steps : list (string * string * string);
  model_turns : nat
}.

Class World := {
  LLM : Type;
  BoundLLM : Type;
  AgentTool : Type;
  ChatOpenAI : string -> exn + LLM;
  llm_invoke : LLM -> chat_input -> exn + ai_message;
  tool_decorator : string -> (string -> string) -> exn + tool;
  bind_tools : LLM -> list tool -> exn + BoundLLM;
  bound_invoke : BoundLLM -> chat_input -> exn + ai_message;
  tool_invoke : tool -> gmap string string -> exn + string;
  load_tools : list string -> LLM -> exn + list AgentTool;
  (* the agent's model, given the question and the steps so far *)
  agent_plan : LLM -> string -> list (string * string * string) -> exn + agent_step;
  (* running one of the agent's tools on an input *)
  agent_act : list AgentTool -> string -> string -> exn + string
}.

(** Modelled from the spec: the ReAct agent loop is the framework's and is
    not in the repository.  The spec describes it as the loop that selects
    a tool, invokes it and feeds the result back into the model, under an
    iteration cap: each iteration asks the model for the next step; a final
    answer ends the run, an action is run and its observation is added to
    the steps the model sees next; when the cap is reached the run stops. *)
Fixpoint agent_loop `{World} (llm : LLM) (tools : list AgentTool) (input : string)
    (cap : nat) (steps : list (string * string * string)) (turns : nat) :
    exn + agent_run :=
  match cap with
  | O => inr (AgentRun "Agent stopped due to iteration limit or time limit." steps turns)
  | S cap' =>
      match agent_plan llm input steps with
      | inl e => inl e
      | inr (AgentFinish output) => inr (AgentRun output steps (S turns))
      | inr (AgentAction t i) =>
          match agent_act tools t i with
          | inl e => inl e
          | inr observation =>
              agent_loop llm tools input cap' (steps ++ [(t, i, observation)]) (S turns)
          end
      end
  end.

(** The keyword and positional arguments of the [initialize_agent] call. *)
Record agent_config `{World} := AgentConfig {
  cfg_tools : list AgentTool;
  cfg_llm : LLM;
  cfg_agent : string;
  cfg_verbose : bool;
  cfg_max_iterations : nat
}.

Definition agent_executor `{World} (cfg : agent_config) (input : string) :
    exn + agent_run :=
  agent_loop (cfg_llm cfg) (cfg_tools cfg) input (cfg_max_iterations cfg) [] 0.

Section Notebook.
Context {W : World}.

Definition question : string := "How will the weather be in Bangalore today?".

Definition cell_llm : NB LLM :=
  ext_openai "ChatOpenAI" None (PStrs ["temperature=0.0"; "model=gpt-4o-mini"])
    (fun _ => PUnit) (ChatOpenAI "gpt-4o-mini").

Definition cell_plain_invoke (llm : LLM) : NB ai_message :=
  ext "llm.invoke" (PStr question) (fun m => PMsg (AIMessage m))
    (llm_invoke llm (Text question)).

Definition cell_define_tools : NB (tool * tool) :=
  weather ← ext "tool" (PStr "fake_weather_api") (fun _ => PUnit)
              (tool_decorator "fake_weather_api" fake_weather_api);
  seating ← ext "tool" (PStr "outdoor_seating_availability") (fun _ => PUnit)
              (tool_decorator "outdoor_seating_availability"
                 outdoor_seating_availability);
  mret (weather, seating).

Definition cell_bind_tools (llm : LLM) (tools : list tool) : NB BoundLLM :=
  ext "llm.bind_tools" PUnit (fun _ => PUnit) (bind_tools llm tools).

Definition cell_bound_invoke (llm_with_tools : BoundLLM) : NB ai_message :=
  ext "llm_with_tools.invoke" (PStr question) (fun m => PMsg (AIMessage m))
    (bound_invoke llm_with_tools (Text question)).

Definition question2 : string :=
  "How will the weather be in Bangalore today? Do you still have seats outdoor available?".

Definition cell_conversation (llm_with_tools : BoundLLM) : NB ai_message :=
  set_messages [HumanMessage question2];;
  messages ← get_messages;
  result ← ext "llm_with_tools.invoke" (PMsgs messages) (fun m => PMsg (AIMessage m))
             (bound_invoke llm_with_tools (Messages messages));
  append_message (AIMessage result);;
  mret result.

Definition tool_mapping (weather seating : tool) : gmap string tool :=
  {[ "fake_weather_api" := weather;
     "outdoor_seating_availability" := seating ]}.

(** The body of the [for tool_call in result.tool_calls] loop. *)
Definition route_one (mapping : gmap string tool) (tool_call : tool_call) :
    NB unit :=
  tool ← getitem mapping (Py.lower (tc_name tool_call));
  tool_output ← ext "tool.invoke" (PArgs (tc_args tool_call)) PStr
                  (tool_invoke tool (tc_args tool_call));
  append_message (ToolMessage tool_output (tc_id tool_call)).

Definition cell_route (mapping : gmap string tool) (result : ai_message) :
    NB unit :=
  for_each (ai_tool_calls result) (route_one mapping).

Definition cell_final_invoke (llm_with_tools : BoundLLM) : NB ai_message :=
  messages ← get_messages;
  ext "llm_with_tools.invoke" (PMsgs messages) (fun m => PMsg (AIMessage m))
    (bound_invoke llm_with_tools (Messages messages)).

Definition cell_math_tools : NB (LLM * list AgentTool) :=
  llm ← ext_openai "ChatOpenAI" None (PStrs ["model=gpt-4o-mini"])
          (fun _ => PUnit) (ChatOpenAI "gpt-4o-mini");
  tools ← ext "load_tools" (PStrs ["llm-math"]) (fun _ => PUnit)
            (load_tools ["llm-math"] llm);
  mret (llm, tools).

Definition initialize_agent_arguments : list string :=
  ["tools"; "llm"; "agent=AgentType.ZERO_SHOT_REACT_DESCRIPTION";
   "verbose=True"; "max_iterations=3"].

Definition cell_initialize_agent (llm : LLM) (tools : list AgentTool) :
    NB agent_config :=
  ext "initialize_agent" (PStrs initialize_agent_arguments) (fun _ => PUnit)
    (inr (AgentConfig _ tools llm "ZERO_SHOT_REACT_DESCRIPTION" true 3)).

Definition agent_invoke (agent : agent_config) (input : string) : NB agent_run :=
  ext "agent.invoke" (PStr input) (fun r => PStr (run_output r))
    (agent_executor agent input).

Definition notebook : NB unit :=
  llm ← cell_llm;
  cell_plain_invoke llm;;
  '(weather, seating) ← cell_define_tools;
  llm_with_tools ← cell_bind_tools llm [weather; seating];
  cell_bound_invoke llm_with_tools;;
  result ← cell_conversation llm_with_tools;
  cell_route (tool_mapping weather seating) result;;
  cell_final_invoke llm_with_tools;;
  '(llm, tools) ← cell_math_tools;
  agent ← cell_initialize_agent llm tools;
  agent_invoke agent "How many members does the A Team have?";;
  agent_invoke agent "What is 100501 divided by 259?";;
  mret tt.

End Notebook.

End Tools.

(** ** The RAG notebook *)

(** LCEL: a runnable maps an input to an output, [a | b] feeds the output of
    [a] to [b], a dict of runnables gives its input to each entry, and
    [RunnablePassthrough()] returns its input. *)
Definition Runnable (A B : Type) : Type := A -> NB B.

Definition pipe {A B C} (a : Runnable A B) (b : Runnable B C) : Runnable A C :=
  fun x => y ← a x; b y.

Definition RunnablePassthrough {A} : Runnable A A := fun x => mret x.

(** A plain function used as a chain step. *)
Definition RunnableLambda {A B} (f : A -> B) : Runnable A B := fun x => mret (f x).

(** [{"context": c, "question": q}] as a chain step. *)
Definition context_question {A B C} (c : Runnable A B) (q : Runnable A C) :
    Runnable A (B * C) :=
  fun x => ctx ← c x; qu ← q x; mret (ctx, qu).

Module Rag.

(** numpy, on vectors idealised as lists of reals. *)
Class Numpy := {
  np_dot : list R -> list R -> exn + R;
  np_norm : list R -> R
}.

(** What fills the [{context}] slot of a prompt: a string, or a list of
    documents. *)
Inductive context_value :=
  | CtxText (s : string)
  | CtxDocs (ds : list document).

Class World := {
  Loader : Type;
  Splitter : Type;
  Embeddings : Type;
  Store : Type;
  Retriever : Type;
  Prompt : Type;
  LLM : Type;
  Encoding : Type;
  dotenv_file : list (string * string);
  pip_install : list string -> exn + unit;
  WebBaseLoader : string -> list string -> exn + Loader;
  TextLoader : string -> exn + Loader;
  loader_load : Loader -> exn + list document;
  RecursiveCharacterTextSplitter : nat -> nat -> exn + Splitter;
  from_tiktoken_encoder : nat -> nat -> exn + Splitter;
  split_documents : Splitter -> list document -> exn + list document;
  OpenAIEmbeddings : exn + Embeddings;
  SentenceTransformerEmbeddings : string -> exn + Embeddings;
  Chroma_from_documents : list document -> Embeddings -> option string -> exn + Store;
  as_retriever : Store -> option nat -> exn + Retriever;
  retrieve : Retriever -> string -> exn + list document;
  similarity_search : Store -> string -> exn + list document;
  hub_pull : string -> exn + Prompt;
  PromptTemplate_from_template : string -> exn + Prompt;
  ChatPromptTemplate_from_template : string -> exn + Prompt;
  prompt_format : Prompt -> string -> string -> exn + string;
  prompt_invoke : Prompt -> context_value -> string -> exn + chat_input;
  ChatOpenAI : string -> exn + LLM;
  llm_invoke : LLM -> chat_input -> exn + ai_message;
  parse_str : ai_message -> exn + string;
  get_encoding : string -> exn + Encoding;
  encode : Encoding -> string -> exn + list nat;
  embed_query : Embeddings -> string -> exn + list R;
  str_of_message : ai_message -> string;
  str_of_float : quotient -> string
}.

Definition show_input (i : chat_input) : payload :=
  match i with
  | Text s => PStr s
  | Messages ms => PMsgs ms
  end.

Definition show_context (c : context_value) : payload :=
  match c with
  | CtxText s => PStr s
  | CtxDocs ds => PDocs ds
  end.

(** [def format_docs(docs)] *)
Definition format_docs (docs : list document) : string :=
  Py.join (nl +:+ nl) (page_content <$> docs).

Section Similarity.
Context {N : Numpy}.

(** [def cosine_similarity(vec1, vec2)] *)
Definition cosine_similarity (vec1 vec2 : list R) : NB quotient :=
  dot_product ← ext "np.dot" (PVecs vec1 vec2) PNum (np_dot vec1 vec2);
  norm_vec1 ← ext "np.linalg.norm" (PVec vec1) PNum (inr (np_norm vec1));
  norm_vec2 ← ext "np.linalg.norm" (PVec vec2) PNum (inr (np_norm vec2));
  mret (np_divide dot_product (norm_vec1 * norm_vec2)).

End Similarity.

Section Notebook.
Context {W : World} {N : Numpy}.

(** The chain steps made of framework objects. *)
Definition retriever_step (retriever : Retriever) : Runnable string (list document) :=
  fun q => ext "retriever.invoke" (PStr q) PDocs (retrieve retriever q).

Definition prompt_step (prompt : Prompt) :
    Runnable (context_value * string) chat_input :=
  fun cq => ext "prompt.invoke" (show_context cq.1) show_input
              (prompt_invoke prompt cq.1 cq.2).

Definition llm_step (llm : LLM) : Runnable chat_input ai_message :=
  fun i => ext "llm.invoke" (show_input i) (fun m => PMsg (AIMessage m))
             (llm_invoke llm i).

Definition StrOutputParser : Runnable ai_message string :=
  fun m => ext "StrOutputParser.invoke" (PMsg (AIMessage m)) PStr (parse_str m).

Definition blog_url : string := "https://lilianweng.github.io/posts/2023-06-23-agent/".

Definition blog_classes : list string := ["post-content"; "post-title"; "post-header"].

Definition cell_install : NB unit :=
  ext "pip install"
    (PStrs ["langchain_community"; "tiktoken"; "langchain-openai"; "langchainhub";
            "chromadb"; "langchain"; "sentence-transformers"]) (fun _ => PUnit)
    (pip_install ["langchain_community"; "tiktoken"; "langchain-openai";
                  "langchainhub"; "chromadb"; "langchain"; "sentence-transformers"]);;
  ext "pip install" (PStrs ["bs4"]) (fun _ => PUnit) (pip_install ["bs4"]).

Definition cell_environment : NB (option string) :=
  load_dotenv dotenv_file;;
  os_getenv "OPENAI_API_KEY".

(** The chain of the overview cell.  [CtxText] only records that the context
    handed to the prompt is a string here and a list of documents in the last
    chain of the notebook. *)
Definition overview_chain (retriever : Retriever) (prompt : Prompt) (llm : LLM) :
    Runnable string string :=
  pipe (pipe (pipe
    (context_question
       (pipe (pipe (retriever_step retriever) (RunnableLambda format_docs))
             (RunnableLambda CtxText))
       RunnablePassthrough)
    (prompt_step prompt))
    (llm_step llm))
    StrOutputParser.

Definition cell_overview : NB string :=
  loader ← ext "WebBaseLoader" (PStr blog_url) (fun _ => PUnit)
             (WebBaseLoader blog_url blog_classes);
  docs ← ext "loader.load" PUnit PDocs (loader_load loader);
  text_splitter ← ext "RecursiveCharacterTextSplitter"
                    (PStrs ["chunk_size=1000"; "chunk_overlap=200"]) (fun _ => PUnit)
                    (RecursiveCharacterTextSplitter 1000 200);
  splits ← ext "text_splitter.split_documents" (PDocs docs) PDocs
             (split_documents text_splitter docs);
  embedding ← ext_openai "OpenAIEmbeddings" None PUnit (fun _ => PUnit) OpenAIEmbeddings;
  vectorstore ← ext "Chroma.from_documents" (PDocs splits) (fun _ => PUnit)
                  (Chroma_from_documents splits embedding None);
  retriever ← ext "vectorstore.as_retriever" PUnit (fun _ => PUnit)
                (as_retriever vectorstore None);
  prompt ← ext "hub.pull" (PStr "rlm/rag-prompt") (fun _ => PUnit)
             (hub_pull "rlm/rag-prompt");
  llm ← ext_openai "ChatOpenAI" None (PStrs ["model_name=gpt-4o-mini"; "temperature=0"])
          (fun _ => PUnit) (ChatOpenAI "gpt-4o-mini");
  overview_chain retriever prompt llm "What is Task Decomposition?".

Definition query : string := "What is Malcolm?".

Definition cell_shakespeare : NB (list document) :=
  loader ← ext "TextLoader" (PStr "shakespeare.txt") (fun _ => PUnit)
             (TextLoader "shakespeare.txt");
  documents ← ext "loader.load" PUnit PDocs (loader_load loader);
  text_splitter ← ext "RecursiveCharacterTextSplitter"
                    (PStrs ["chunk_size=1024"; "chunk_overlap=200"]) (fun _ => PUnit)
                    (RecursiveCharacterTextSplitter 1024 200);
  docs ← ext "text_splitter.split_documents" (PDocs documents) PDocs
           (split_documents text_splitter documents);
  embedding_function ← ext "SentenceTransformerEmbeddings" (PStr "all-MiniLM-L6-v2")
                         (fun _ => PUnit)
                         (SentenceTransformerEmbeddings "all-MiniLM-L6-v2");
  db ← ext "Chroma.from_documents" (PDocs docs) (fun _ => PUnit)
         (Chroma_from_documents docs embedding_function (Some "shakespeare"));
  docs ← ext "db.similarity_search" (PStr query) PDocs (similarity_search db query);
  doc ← first docs;
  print (page_content doc);;
  mret docs.

Definition manual_template : string :=
  "Based on the following context, answer the question:" +:+ nl +:+ nl +:+
  "{context}" +:+ nl +:+ nl +:+ "Question: {query}" +:+ nl +:+ "Answer:".

Definition cell_manual_rag (docs : list document) : NB ai_message :=
  doc ← first docs;
  let context := page_content doc in
  prompt ← ext "PromptTemplate.from_template" (PStr manual_template) (fun _ => PUnit)
             (PromptTemplate_from_template manual_template);
  llm ← ext_openai "ChatOpenAI" None (PStrs ["temperature=0.0"; "model=gpt-4o-mini"])
          (fun _ => PUnit) (ChatOpenAI "gpt-4o-mini");
  text ← ext "prompt.format" (PStrs [context; query]) PStr
           (prompt_format prompt context query);
  answer ← ext "llm.invoke" (PStr text) (fun m => PMsg (AIMessage m))
             (llm_invoke llm (Text text));
  print (str_of_message answer);;
  mret answer.

Definition question : string := "What kinds of pets do I like?".
Definition document_text : string := "My favorite pet is a cat.".

(** [def num_tokens_from_string(string, encoding_name)] *)
Definition num_tokens_from_string (string encoding_name : String.string) : NB nat :=
  encoding ← ext "tiktoken.get_encoding" (PStr encoding_name) (fun _ => PUnit)
               (get_encoding encoding_name);
  tokens ← ext "encoding.encode" (PStr string) (fun t => PNat (length t))
             (encode encoding string);
  mret (length tokens).

Definition cell_embed : NB (list R * list R) :=
  embd ← ext_openai "OpenAIEmbeddings" None PUnit (fun _ => PUnit) OpenAIEmbeddings;
  query_result ← ext "embd.embed_query" (PStr question) PVec (embed_query embd question);
  document_result ← ext "embd.embed_query" (PStr document_text) PVec
                      (embed_query embd document_text);
  print ("Length of query: " +:+ pretty (length query_result));;
  print ("Length of document: " +:+ pretty (length document_result));;
  mret (query_result, document_result).

Definition cell_similarity (query_result document_result : list R) : NB quotient :=
  similarity ← cosine_similarity query_result document_result;
  print ("Cosine Similarity: " +:+ str_of_float similarity);;
  mret similarity.

Definition cell_index : NB (list document) :=
  loader ← ext "WebBaseLoader" (PStr blog_url) (fun _ => PUnit)
             (WebBaseLoader blog_url blog_classes);
  blog_docs ← ext "loader.load" PUnit PDocs (loader_load loader);
  text_splitter ← ext "RecursiveCharacterTextSplitter.from_tiktoken_encoder"
                    (PStrs ["chunk_size=300"; "chunk_overlap=50"]) (fun _ => PUnit)
                    (from_tiktoken_encoder 300 50);
  splits ← ext "text_splitter.split_documents" (PDocs blog_docs) PDocs
             (split_documents text_splitter blog_docs);
  embedding ← ext_openai "OpenAIEmbeddings" None PUnit (fun _ => PUnit) OpenAIEmbeddings;
  vectorstore ← ext "Chroma.from_documents" (PDocs splits) (fun _ => PUnit)
                  (Chroma_from_documents splits embedding None);
  ext "vectorstore.as_retriever" PUnit (fun _ => PUnit)
    (as_retriever vectorstore None);;
  mret splits.

Definition cell_retrieval (splits : list document) : NB (Retriever * list document) :=
  embedding ← ext_openai "OpenAIEmbeddings" None PUnit (fun _ => PUnit) OpenAIEmbeddings;
  vectorstore ← ext "Chroma.from_documents" (PDocs splits) (fun _ => PUnit)
                  (Chroma_from_documents splits embedding None);
  retriever ← ext "vectorstore.as_retriever" (PStrs ["k=1"]) (fun _ => PUnit)
                (as_retriever vectorstore (Some 1));
  docs ← ext "retriever.get_relevant_documents" (PStr "What is Task Decomposition?")
           PDocs (retrieve retriever "What is Task Decomposition?");
  mret (retriever, docs).

Definition generation_template : string :=
  "Answer the question based only on the following context:" +:+ nl +:+
  "{context}" +:+ nl +:+ nl +:+ "Question: {question}" +:+ nl.

Definition cell_generation (retriever : Retriever) (docs : list document) : NB string :=
  prompt ← ext "ChatPromptTemplate.from_template" (PStr generation_template)
             (fun _ => PUnit) (ChatPromptTemplate_from_template generation_template);
  llm ← ext_openai "ChatOpenAI" None (PStrs ["model_name=gpt-4o-mini"; "temperature=0"])
          (fun _ => PUnit) (ChatOpenAI "gpt-4o-mini");
  pipe (prompt_step prompt) (llm_step llm) (CtxDocs docs, "What is Task Decomposition?");;
  prompt_hub_rag ← ext "hub.pull" (PStr "rlm/rag-prompt") (fun _ => PUnit)
                     (hub_pull "rlm/rag-prompt");
  pipe (pipe (pipe
    (context_question (pipe (retriever_step retriever) (RunnableLambda CtxDocs))
                      RunnablePassthrough)
    (prompt_step prompt_hub_rag))
    (llm_step llm))
    StrOutputParser
    "What is Task Decomposition?".

Definition notebook : NB unit :=
  cell_install;;
  cell_environment;;
  cell_overview;;
  docs ← cell_shakespeare;
  cell_manual_rag docs;;
  num_tokens_from_string question "cl100k_base";;
  '(query_result, document_result) ← cell_embed;
  cell_similarity query_result document_result;;
  splits ← cell_index;
  '(retriever, docs) ← cell_retrieval splits;
  cell_generation retriever docs;;
  mret tt.

End Notebook.

End Rag.

(** ** Concrete frameworks

    One possible behaviour of the third-party components for each notebook,
    following the outputs recorded in the notebooks; they are used to run
    the notebooks on concrete inputs. *)

(** [str.format] with keyword fields: every [{name}] is replaced by its field. *)
Fixpoint format_fields (fields : list (string * string)) (template : string)
    (name : option string) : string :=
  match template with
  | "" => ""
  | String c rest =>
      match name with
      | None =>
          if decide (String c "" = "{") then format_fields fields rest (Some "")
          else String c (format_fields fields rest None)
      | Some n =>
          if decide (String c "" = "}")
          then default "" ((list_to_map fields : gmap string string) !! n)
               +:+ format_fields fields rest None
          else format_fields fields rest (Some (n +:+ String c ""))
      end
  end.

Module Replay.

Definition basics (file : list (string * string)) (answers : list string) :
    Basics.World :=
  {| Basics.getcwd := "/home/student/1. Basics";
     Basics.dotenv_file := file;
     Basics.chat_completions_create := fun _ _ => inr (Basics.ChatCompletion answers);
     Basics.model_dump := fun r => inr (Py.join ", " (Basics.choices r)) |}.

(** The tool calls of the recorded conversation. *)
Definition weather_call : tool_call :=
  ToolCall "fake_weather_api" {[ "city" := "Bangalore" ]} "call_0MyvdnQotPWUwxWrRBSRaeYZ".

Definition seating_call : tool_call :=
  ToolCall "outdoor_seating_availability" {[ "city" := "Bangalore" ]}
           "call_ZbDGmtMhtjnrldpQoyfNmSrc".

(** A model that asks for [asked] when the conversation holds no tool
    message yet, and answers in text otherwise. *)
Definition tools (asked : list tool_call) : Tools.World :=
  {| Tools.LLM := unit;
     Tools.BoundLLM := unit;
     Tools.AgentTool := string;
     Tools.ChatOpenAI := fun _ => inr tt;
     Tools.llm_invoke := fun _ _ =>
       inr (AiMessage "I'm unable to provide real-time weather updates." []);
     Tools.tool_decorator := fun name f => inr (Tools.Tool name f);
     Tools.bind_tools := fun _ _ => inr tt;
     Tools.bound_invoke := fun _ i =>
       match i with
       | Text _ => inr (AiMessage "" [weather_call])
       | Messages ms =>
           if existsb is_tool_message ms
           then inr (AiMessage "The weather in Bangalore today is sunny." [])
           else inr (AiMessage "" asked)
       end;
     Tools.tool_invoke := fun t args =>
       match args !! "city" with
       | Some city => inr (Tools.tool_func t city)
       | None => inl (Raised "ValidationError: city is required")
       end;
     Tools.load_tools := fun _ _ => inr ["Calculator"];
     Tools.agent_plan := fun _ input steps =>
       match steps with
       | [] => inr (Tools.AgentAction "Calculator" input)
       | _ => inr (Tools.AgentFinish "388.03474903474904")
       end;
     Tools.agent_act := fun _ _ _ => inr "Answer: 388.03474903474904" |}.

(** An agent model that never reaches a final answer. *)
Definition restless : Tools.World :=
  {| Tools.LLM := unit;
     Tools.BoundLLM := unit;
     Tools.AgentTool := string;
     Tools.ChatOpenAI := fun _ => inr tt;
     Tools.llm_invoke := fun _ _ => inr (AiMessage "" []);
     Tools.tool_decorator := fun name f => inr (Tools.Tool name f);
     Tools.bind_tools := fun _ _ => inr tt;
     Tools.bound_invoke := fun _ _ => inr (AiMessage "" []);
     Tools.tool_invoke := fun t args => inr (Tools.tool_func t "");
     Tools.load_tools := fun _ _ => inr ["Calculator"];
     Tools.agent_plan := fun _ input _ => inr (Tools.AgentAction "Calculator" input);
     Tools.agent_act := fun _ _ _ => inr "Answer: 42" |}.

Definition render_context (c : Rag.context_value) : string :=
  match c with
  | Rag.CtxText s => s
  | Rag.CtxDocs ds => Py.join ", " (page_content <$> ds)
  end.

(** A store that returns its first documents, a model that answers with a
    fixed text, and embeddings of dimension two. *)
Definition rag (file : list (string * string)) (corpus : list document)
    (vec : string -> list R) : Rag.World :=
  {| Rag.Loader := unit;
     Rag.Splitter := unit;
     Rag.Embeddings := unit;
     Rag.Store := list document;
     Rag.Retriever := list document * nat;
     Rag.Prompt := string;
     Rag.LLM := unit;
     Rag.Encoding := unit;
     Rag.dotenv_file := file;
     Rag.pip_install := fun _ => inr tt;
     Rag.WebBaseLoader := fun _ _ => inr tt;
     Rag.TextLoader := fun _ => inr tt;
     Rag.loader_load := fun _ => inr corpus;
     Rag.RecursiveCharacterTextSplitter := fun _ _ => inr tt;
     Rag.from_tiktoken_encoder := fun _ _ => inr tt;
     Rag.split_documents := fun _ ds => inr ds;
     Rag.OpenAIEmbeddings := inr tt;
     Rag.SentenceTransformerEmbeddings := fun _ => inr tt;
     Rag.Chroma_from_documents := fun ds _ _ => inr ds;
     Rag.as_retriever := fun st k => inr (st, default 4%nat k);
     Rag.retrieve := fun r _ => inr (take r.2 r.1);
     Rag.similarity_search := fun st _ => inr (take 4 st);
     Rag.hub_pull := fun _ => inr "Question: {question} Context: {context} Answer:";
     Rag.PromptTemplate_from_template := fun t => inr t;
     Rag.ChatPromptTemplate_from_template := fun t => inr t;
     Rag.prompt_format := fun t context query =>
       inr (format_fields [("context", context); ("query", query)] t None);
     Rag.prompt_invoke := fun t c question =>
       inr (Text (format_fields [("context", render_context c); ("question", question)]
                    t None));
     Rag.ChatOpenAI := fun _ => inr tt;
     Rag.llm_invoke := fun _ _ => inr (AiMessage "Malcolm is the son of King Duncan." []);
     Rag.parse_str := fun m => inr (ai_content m);
     Rag.get_encoding := fun _ => inr tt;
     Rag.encode := fun _ s => inr (Ascii.nat_of_ascii <$> String.list_ascii_of_string s);
     Rag.embed_query := fun _ s => inr (vec s);
     Rag.str_of_message := ai_content;
     Rag.str_of_float := fun _ => "0.88" |}.

End Replay.

(** numpy on real vectors: [np.dot] of two one-dimensional arrays is their
    inner product and raises on different lengths; [np.linalg.norm] is the
    Euclidean norm.  Rounding, overflow and underflow are left out: this
    instance is used only where they play no part (which calls are issued,
    on which arguments, and what a difference of lengths does). *)
Fixpoint dot (v1 v2 : list R) : R :=
  match v1, v2 with
  | x :: xs, y :: ys => (x * y + dot xs ys)%R
  | _, _ => 0%R
  end.

Definition norm (v : list R) : R := sqrt (dot v v).

Definition numpy_real : Rag.Numpy :=
  {| Rag.np_dot := fun v1 v2 =>
       if decide (length v1 = length v2) then inr (dot v1 v2)
       else inl (Raised "ValueError: shapes not aligned");
     Rag.np_norm := norm |}.

(** ** Cosine similarity on float64

    The vectors the notebook passes to [cosine_similarity] are lists of
    Python floats, and numpy returns [np.float64] scalars: the product and
    the quotient the function computes are IEEE 754 binary64 operations,
    which round, overflow to an infinity, underflow to zero, and on a zero
    divisor return an infinity or nan (with a warning of numpy) and raise
    nothing.  [Rag.cosine_similarity] above records the calls and idealises
    the numbers; the value the function returns is the one below. *)

Module Float64.

(** numpy on float64 vectors: [np.dot] returns a scalar or raises,
    [np.linalg.norm] returns a scalar. *)
Class Numpy := {
  np_dot : list float -> list float -> exn + float;
  np_norm : list float -> float
}.

(** [def cosine_similarity(vec1, vec2)] *)
Definition cosine_similarity `{Numpy} (vec1 vec2 : list float) : exn + float :=
  match np_dot vec1 vec2 with
  | inl e => inl e
  | inr dot_product =>
      let norm_vec1 := np_norm vec1 in
      let norm_vec2 := np_norm vec2 in
      inr (dot_product / (norm_vec1 * norm_vec2))%float
  end.

(** A numpy that accumulates the products in the order of the elements:
    [np.dot] of two one-dimensional arrays raises on different lengths, and
    [np.linalg.norm] is the square root of the dot product of the vector with
    itself.  (An optimised build may add the products up in another order;
    on vectors of one element and on zero vectors there is nothing to
    reorder.) *)
Fixpoint dot (acc : float) (v1 v2 : list float) : float :=
  match v1, v2 with
  | x :: xs, y :: ys => dot (acc + x * y)%float xs ys
  | _, _ => acc
  end.

Definition numpy : Numpy :=
  {| np_dot := fun v1 v2 =>
       if decide (length v1 = length v2) then inr (dot 0%float v1 v2)
       else inl (Raised "ValueError: shapes not aligned");
     np_norm := fun v => PrimFloat.sqrt (dot 0%float v v) |}.

End Float64.

(** ** Properties of runs *)

(** A run completed: no cell raised. *)
Definition completed {A} (out : nbstate * (exn + A)) : Prop :=
  exists a, out.2 = inr a.

(** The stage of the RAG pipeline a call performs, if any.  One call,
    [Chroma.from_documents], both embeds and stores. *)
Inductive stage := Load | Split | EmbedStore | Retrieve | Generate.

Definition stage_of (name : string) : option stage :=
  if decide (name = "loader.load") then Some Load
  else if decide (name = "text_splitter.split_documents") then Some Split
  else if decide (name = "Chroma.from_documents") then Some EmbedStore
  else if decide (name = "retriever.invoke") then Some Retrieve
  else if decide (name = "retriever.get_relevant_documents") then Some Retrieve
  else if decide (name = "db.similarity_search") then Some Retrieve
  else if decide (name = "llm.invoke") then Some Generate
  else None.

Definition stages (s : nbstate) : list stage := omap stage_of (callees s).


(** A retrieval call whose documents reach the prompt of a later call to the
    model. *)
Definition retrieval_feeds_generation (trace : list event) : Prop :=
  exists i j r g ds d text,
    (i < j)%nat /\ trace !! i = Some r /\ trace !! j = Some g /\
    res r = PDocs ds /\ d ∈ ds /\
    callee g = "llm.invoke" /\ arg g = PStr text /\
    Py.str_contains (page_content d) text = true.

(** The tool messages that answer [tcs] with the outputs [outs]. *)
Definition tool_messages (tcs : list tool_call) (outs : list string) : list message :=
  zip_with (fun tc out => ToolMessage out (tc_id tc)) tcs outs.

(** The call that runs the tool of [tc] and returns [out]. *)
Definition tool_events (tcs : list tool_call) (outs : list string) : list event :=
  zip_with (fun tc out => Event "tool.invoke" (PArgs (tc_args tc)) (PStr out) NoKey) tcs outs.

(** The call [tc] names a tool of the mapping whose invocation on the call's
    arguments returns [out]. *)
Definition answers `{W : Tools.World} (tool_mapping : gmap string Tools.tool)
    (tc : tool_call) (out : string) : Prop :=
  exists t, tool_mapping !! Py.lower (tc_name tc) = Some t /\
            Tools.tool_invoke t (tc_args tc) = inr out.

(** The state after the loop answered [tcs] with [outs]. *)
Definition routed (s : nbstate) (tcs : list tool_call) (outs : list string) : nbstate :=
  NbState (environ s) (calls s ++ tool_events tcs outs) (stdout s)
          (messages s ++ tool_messages tcs outs).

(** ** Statements of the specification, as it words them

    Each is contradicted by a run of a notebook, shown further down. *)

(** Executing a tool and routing its response is left to the framework: the
    notebook itself invokes no tool and appends no tool message. *)
Definition tool_routing_left_to_framework : Prop :=
  forall (W : Tools.World) env,
    let s' := (Tools.notebook (fresh env)).1 in
    ("tool.invoke" ∉ callees s') /\
    Forall (fun m => is_tool_message m = false) (messages s').

(** As soon as the lowercased name of every tool call is a key of the
    mapping, the loop appends one tool message per tool call. *)
Definition tool_messages_paired_when_names_are_keys : Prop :=
  forall (W : Tools.World) (tool_mapping : gmap string Tools.tool)
         (result : ai_message) (s : nbstate),
    Forall (fun tc => is_Some (tool_mapping !! Py.lower (tc_name tc)))
           (ai_tool_calls result) ->
    length (messages (Tools.cell_route tool_mapping result s).1)
      = (length (messages s) + length (ai_tool_calls result))%nat.

(** Every similarity score is delegated: a score the notebook obtains is the
    result of a call to a third-party component. *)
Definition similarity_delegated : Prop :=
  forall (N : Rag.Numpy) env vec1 vec2 score,
    (Rag.cosine_similarity vec1 vec2 (fresh env)).2 = inr (Quot score) ->
    exists ev, ev ∈ calls (Rag.cosine_similarity vec1 vec2 (fresh env)).1 /\
               res ev = PNum score.


(** Whenever either argument of [cosine_similarity] is a zero vector, the
    divisor of its division is zero. *)
Definition zero_vector_makes_divisor_zero : Prop :=
  forall vec1 vec2 : list float,
    length vec1 = length vec2 ->
    Forall (fun x => is_zero x = true) vec1 \/ Forall (fun x => is_zero x = true) vec2 ->
    is_zero (@Float64.np_norm Float64.numpy vec1 * @Float64.np_norm Float64.numpy vec2)%float
      = true.

(** Retrieval and generation are combined only inside a pre-built pipeline:
    no call of the notebook to the model is given a prompt made from documents
    that an earlier retrieval call of the notebook returned. *)
Definition rag_only_through_prebuilt_pipeline : Prop :=
  forall (W : Rag.World) (N : Rag.Numpy) env,
    ~ retrieval_feeds_generation (calls (Rag.notebook (fresh env)).1).

(** Every notebook is a straight line of calls: two runs of a notebook that
    complete issue the same calls in the same order, whatever the third-party
    components answered. *)
Definition notebooks_straight_line : Prop :=
  (forall (W1 W2 : Basics.World) env1 env2,
     completed (@Basics.notebook W1 (fresh env1)) ->
     completed (@Basics.notebook W2 (fresh env2)) ->
     callees (@Basics.notebook W1 (fresh env1)).1
       = callees (@Basics.notebook W2 (fresh env2)).1) /\
  (forall (W1 W2 : Rag.World) (N1 N2 : Rag.Numpy) env1 env2,
     completed (@Rag.notebook W1 N1 (fresh env1)) ->
     completed (@Rag.notebook W2 N2 (fresh env2)) ->
     callees (@Rag.notebook W1 N1 (fresh env1)).1
       = callees (@Rag.notebook W2 N2 (fresh env2)).1) /\
  (forall (W1 W2 : Tools.World) env1 env2,
     completed (@Tools.notebook W1 (fresh env1)) ->
     completed (@Tools.notebook W2 (fresh env2)) ->
     callees (@Tools.notebook W1 (fresh env1)).1
       = callees (@Tools.notebook W2 (fresh env2)).1).

(** In every notebook the key used is the value of [OPENAI_API_KEY] after
    the .env file [file] has been loaded into the environment [env]. *)
Definition key_read_after_dotenv_in_every_notebook : Prop :=
  (forall (W : Basics.World) env k,
     k ∈ keys_used (Basics.notebook (fresh env)).1 ->
     k = dotenv_apply Basics.dotenv_file env !! "OPENAI_API_KEY") /\
  (forall (W : Rag.World) (N : Rag.Numpy) env k,
     k ∈ keys_used (Rag.notebook (fresh env)).1 ->
     k = dotenv_apply Rag.dotenv_file env !! "OPENAI_API_KEY") /\
  (forall (W : Tools.World) file env k,
     k ∈ keys_used (Tools.notebook (fresh env)).1 ->
     k = dotenv_apply file env !! "OPENAI_API_KEY").

(** The order of the calls of a completed run of each notebook. *)
Definition basics_call_order : list string :=
  ["os.getcwd"; "load_dotenv"; "os.getenv"; "openai.chat.completions.create";
   "response.model_dump"].

Definition rag_call_order : list string :=
  ["pip install"; "pip install"; "load_dotenv"; "os.getenv";
   "WebBaseLoader"; "loader.load"; "RecursiveCharacterTextSplitter";
   "text_splitter.split_documents"; "OpenAIEmbeddings"; "Chroma.from_documents";
   "vectorstore.as_retriever"; "hub.pull"; "ChatOpenAI"; "retriever.invoke";
   "prompt.invoke"; "llm.invoke"; "StrOutputParser.invoke";
   "TextLoader"; "loader.load"; "RecursiveCharacterTextSplitter";
   "text_splitter.split_documents"; "SentenceTransformerEmbeddings";
   "Chroma.from_documents"; "db.similarity_search";
   "PromptTemplate.from_template"; "ChatOpenAI"; "prompt.format"; "llm.invoke";
   "tiktoken.get_encoding"; "encoding.encode";
   "OpenAIEmbeddings"; "embd.embed_query"; "embd.embed_query";
   "np.dot"; "np.linalg.norm"; "np.linalg.norm";
   "WebBaseLoader"; "loader.load";
   "RecursiveCharacterTextSplitter.from_tiktoken_encoder";
   "text_splitter.split_documents"; "OpenAIEmbeddings"; "Chroma.from_documents";
   "vectorstore.as_retriever";
   "OpenAIEmbeddings"; "Chroma.from_documents"; "vectorstore.as_retriever";
   "retriever.get_relevant_documents";
   "ChatPromptTemplate.from_template"; "ChatOpenAI"; "prompt.invoke"; "llm.invoke";
   "hub.pull"; "retriever.invoke"; "prompt.invoke"; "llm.invoke";
   "StrOutputParser.invoke"].

Definition tools_calls_before_loop : list string :=
  ["ChatOpenAI"; "llm.invoke"; "tool"; "tool"; "llm.bind_tools";
   "llm_with_tools.invoke"; "llm_with_tools.invoke"].

Definition tools_calls_after_loop : list string :=
  ["llm_with_tools.invoke"; "ChatOpenAI"; "load_tools"; "initialize_agent";
   "agent.invoke"; "agent.invoke"].

(** The invariant of the key: the environment holds [k], and every call made
    so far used [k]. *)
Definition key_inv (k : option string) (s : nbstate) : Prop :=
  environ s !! "OPENAI_API_KEY" = k /\ Forall (fun k' => k' = k) (keys_used s).

(** When [c] completes, the calls it issued are those named by [names], in
    that order. *)
Definition issues {A} (c : NB A) (names : list string) : Prop :=
  forall s s' a, c s = (s', inr a) -> callees s' = callees s ++ names.

(** [c] keeps the invariant [I], however it ends. *)
Definition keeps {A} (I : nbstate -> Prop) (c : NB A) : Prop :=
  forall s, I s -> I (c s).1.

(** The agent is configured by three settings: tool list, iteration cap and
    verbosity flag. *)
Definition agent_configured_by_three_settings : Prop :=
  forall (W : Tools.World) env ev,
    ev ∈ calls (Tools.notebook (fresh env)).1 ->
    callee ev = "initialize_agent" ->
    exists tools cap verbose, arg ev = PStrs [tools; cap; verbose].

(** * Reasoning about runs *)

(** [wp c Q s]: running [c] from [s] ends in a state and an outcome that
    satisfy [Q]. *)
Definition wp {A} (c : NB A) (Q : nbstate -> exn + A -> Prop) (s : nbstate) : Prop :=
  Q (c s).1 (c s).2.

(** ** Strings *)

Lemma str_app_cons x a b : String x a +:+ b = String x (a +:+ b).
Proof. reflexivity. Qed.

Lemma str_app_length a b : String.length (a +:+ b) = (String.length a + String.length b)%nat.
Proof. induction a as [|c a IH]; [done|]. rewrite str_app_cons. simpl. by rewrite IH. Qed.

Lemma str_app_assoc a b c : (a +:+ b) +:+ c = a +:+ (b +:+ c).
Proof. induction a as [|x a IH]; [done|]. rewrite !str_app_cons. f_equal. apply IH. Qed.

Lemma str_app_nil_r a : a +:+ "" = a.
Proof. induction a as [|x a IH]; [done|]. rewrite !str_app_cons. f_equal. apply IH. Qed.

Lemma str_app_inj_length a a' b b' :
  String.length a = String.length a' -> a +:+ b = a' +:+ b' -> a = a' /\ b = b'.
Proof.
  revert a'. induction a as [|x a IH]; intros [|x' a'] Hlen Happ; simpl in *; try done.
  rewrite !str_app_cons in Happ. injection Happ as -> Happ. destruct (IH a') as [-> ->]; [lia | done | done].
Qed.

Lemma str_take_app a x : Py.str_take (String.length a) (a +:+ x) = a.
Proof.
  induction a as [|c a IH]; [by destruct x|]. rewrite str_app_cons. simpl. by rewrite IH.
Qed.

Lemma str_drop_app a x : Py.str_drop (String.length a) (a +:+ x) = x.
Proof. induction a as [|c a IH]; [by destruct x|]. by rewrite str_app_cons. Qed.

Lemma str_take_length n s : String.length (Py.str_take n s) = (n `min` String.length s)%nat.
Proof.
  revert s. induction n as [|n IH]; intros [|c s]; simpl; try done. by rewrite IH.
Qed.

Lemma str_drop_length n s : String.length (Py.str_drop n s) = (String.length s - n)%nat.
Proof. revert s. induction n as [|n IH]; intros [|c s]; simpl; done. Qed.

Lemma str_take_drop n s : Py.str_take n s +:+ Py.str_drop n s = s.
Proof.
  revert s. induction n as [|n IH]; intros [|c s]; simpl; try done.
  rewrite str_app_cons. by rewrite IH.
Qed.

Lemma slice_to_4_length k : String.length (Py.slice_to 4 k) = (4 `min` String.length k)%nat.
Proof. apply str_take_length. Qed.

Lemma slice_last_4_length k :
  String.length (Py.slice_last 4 k) = (4 `min` String.length k)%nat.
Proof. unfold Py.slice_last. rewrite str_drop_length. lia. Qed.

Lemma join_cons2 sep p q rest :
  Py.join sep (p :: q :: rest) = p +:+ sep +:+ Py.join sep (q :: rest).
Proof. reflexivity. Qed.

Lemma str_prefix_app p x : Py.str_prefix p (p +:+ x) = true.
Proof.
  induction p as [|c p IH]; [by destruct x|]. rewrite str_app_cons. simpl.
  by rewrite decide_True.
Qed.

Lemma str_prefix_app_l p a x : Py.str_prefix p a = true -> Py.str_prefix p (a +:+ x) = true.
Proof.
  revert a. induction p as [|c p IH]; intros [|d a] Hpre; simpl in *; try done.
  destruct (decide (c = d)); [by apply IH | done].
Qed.

Lemma str_contains_self p : Py.str_contains p p = true.
Proof.
  destruct p as [|c p]; [done|]. simpl. rewrite decide_True by done.
  rewrite <- (str_app_nil_r p) at 2. by rewrite str_prefix_app.
Qed.

Lemma str_contains_app_l p a x :
  Py.str_contains p a = true -> Py.str_contains p (a +:+ x) = true.
Proof.
  induction a as [|d a IH]; intros Hin.
  - simpl in Hin. rewrite orb_false_r in Hin. destruct p; [|done]. by destruct x.
  - rewrite str_app_cons. simpl in Hin |- *. apply orb_true_iff in Hin as [Hpre|Hin].
    + apply (str_prefix_app_l _ _ x) in Hpre. rewrite str_app_cons in Hpre.
      simpl in Hpre. by rewrite Hpre.
    + rewrite (IH Hin). apply orb_true_r.
Qed.

Lemma str_contains_app_r p a x :
  Py.str_contains p x = true -> Py.str_contains p (a +:+ x) = true.
Proof.
  intros Hin. induction a as [|d a IH]; [done|].
  rewrite str_app_cons. simpl. rewrite IH. apply orb_true_r.
Qed.

Lemma join_app sep l1 l2 :
  l1 <> [] -> l2 <> [] ->
  Py.join sep (l1 ++ l2) = Py.join sep l1 +:+ sep +:+ Py.join sep l2.
Proof.
  intros H1 H2. induction l1 as [|p [|q l1] IH]; [done | |].
  - by destruct l2.
  - simpl app. rewrite join_cons2. change (q :: l1 ++ l2) with ((q :: l1) ++ l2).
    rewrite IH by done. rewrite join_cons2. by rewrite !str_app_assoc.
Qed.


(** ** Rules for [wp] *)

Section WpRules.
Context {A B : Type}.
Implicit Types (s : nbstate) (Q : nbstate -> exn + A -> Prop).

Lemma wp_run (c : NB A) Q s s' r : wp c Q s -> c s = (s', r) -> Q s' r.
Proof. unfold wp. intros HQ Hrun. by rewrite Hrun in HQ. Qed.

Lemma wp_mono (c : NB A) Q Q' s :
  (forall s' r, Q s' r -> Q' s' r) -> wp c Q s -> wp c Q' s.
Proof. unfold wp. auto. Qed.

Lemma wp_ret (a : A) Q s : Q s (inr a) -> wp (mret a) Q s.
Proof. done. Qed.

Lemma wp_raise e Q s : Q s (inl e) -> wp (raise e) Q s.
Proof. done. Qed.

Lemma wp_bind (c : NB A) (k : A -> NB B) (Q : nbstate -> exn + B -> Prop) s :
  wp c (fun s1 r => match r with
                    | inr a => wp (k a) Q s1
                    | inl e => Q s1 (inl e)
                    end) s ->
  wp (c ≫= k) Q s.
Proof.
  unfold wp, mbind, nb_bind. destruct (c s) as [s1 [e|a]]; done.
Qed.

Lemma wp_ext name a (show : A -> payload) (r : exn + A) Q s :
  Q (NbState (environ s) (calls s ++ [Event name a (show_result show r) NoKey])
             (stdout s) (messages s)) r ->
  wp (ext name a show r) Q s.
Proof. done. Qed.

Lemma wp_ext_openai name explicit a (show : A -> payload) (r : exn + A) Q s :
  Q (NbState (environ s)
             (calls s ++ [Event name a (show_result show r)
                                (UsesKey (resolve_key explicit (environ s)))])
             (stdout s) (messages s)) r ->
  wp (ext_openai name explicit a show r) Q s.
Proof. done. Qed.

Lemma wp_first (l : list A) Q s :
  match l with
  | x :: _ => Q s (inr x)
  | [] => Q s (inl IndexError)
  end ->
  wp (first l) Q s.
Proof. by destruct l. Qed.

End WpRules.

Lemma wp_print line (Q : nbstate -> exn + unit -> Prop) s :
  Q (NbState (environ s) (calls s) (stdout s ++ [line]) (messages s)) (inr tt) ->
  wp (print line) Q s.
Proof. done. Qed.

Lemma wp_os_getenv name (Q : nbstate -> exn + option string -> Prop) s :
  Q (NbState (environ s)
             (calls s ++ [Event "os.getenv" (PStr name) (POpt (environ s !! name)) NoKey])
             (stdout s) (messages s)) (inr (environ s !! name)) ->
  wp (os_getenv name) Q s.
Proof. done. Qed.

Lemma wp_load_dotenv file (Q : nbstate -> exn + unit -> Prop) s :
  Q (NbState (dotenv_apply file (environ s))
             (calls s ++ [Event "load_dotenv" PUnit PUnit NoKey])
             (stdout s) (messages s)) (inr tt) ->
  wp (load_dotenv file) Q s.
Proof. done. Qed.

Lemma wp_set_messages ms (Q : nbstate -> exn + unit -> Prop) s :
  Q (NbState (environ s) (calls s) (stdout s) ms) (inr tt) -> wp (set_messages ms) Q s.
Proof. done. Qed.

Lemma wp_get_messages (Q : nbstate -> exn + list message -> Prop) s :
  Q s (inr (messages s)) -> wp get_messages Q s.
Proof. done. Qed.

Lemma wp_append_message m (Q : nbstate -> exn + unit -> Prop) s :
  Q (NbState (environ s) (calls s) (stdout s) (messages s ++ [m])) (inr tt) ->
  wp (append_message m) Q s.
Proof. done. Qed.

Lemma wp_getitem {V} (d : gmap string V) k (Q : nbstate -> exn + V -> Prop) s :
  match d !! k with
  | Some v => Q s (inr v)
  | None => Q s (inl (KeyError k))
  end ->
  wp (getitem d k) Q s.
Proof. unfold getitem. by destruct (d !! k). Qed.

Lemma wp_pipe {A B C} (a : Runnable A B) (b : Runnable B C) x
    (Q : nbstate -> exn + C -> Prop) s :
  wp (a x) (fun s1 r => match r with
                        | inr y => wp (b y) Q s1
                        | inl e => Q s1 (inl e)
                        end) s ->
  wp (pipe a b x) Q s.
Proof. apply wp_bind. Qed.

(** One step of symbolic execution of a notebook program. *)
Ltac wp_step :=
  lazymatch goal with
  | |- wp (mbind _ _) _ _ => apply wp_bind
  | |- wp (pipe _ _ _) _ _ => apply wp_pipe
  | |- wp (mret _) _ _ => apply wp_ret
  | |- wp (raise _) _ _ => apply wp_raise
  | |- wp (ext _ _ _ ?r) _ _ =>
      apply wp_ext; destruct r eqn:?; cbn [show_result environ calls stdout messages]
  | |- wp (ext_openai _ _ _ _ ?r) _ _ =>
      apply wp_ext_openai; destruct r eqn:?; cbn [show_result environ calls stdout messages]
  | |- wp (print _) _ _ => apply wp_print; cbn [environ calls stdout messages]
  | |- wp (os_getenv _) _ _ => apply wp_os_getenv; cbn [environ calls stdout messages]
  | |- wp (load_dotenv _) _ _ => apply wp_load_dotenv; cbn [environ calls stdout messages]
  | |- wp (set_messages _) _ _ => apply wp_set_messages; cbn [environ calls stdout messages]
  | |- wp get_messages _ _ => apply wp_get_messages; cbn [environ calls stdout messages]
  | |- wp (append_message _) _ _ =>
      apply wp_append_message; cbn [environ calls stdout messages]
  | |- wp (first ?l) _ _ => apply wp_first; destruct l eqn:?
  | |- wp (RunnablePassthrough _) _ _ => apply wp_ret
  | |- wp (RunnableLambda _ _) _ _ => apply wp_ret
  | |- wp (let '(_, _) := ?p in _) _ _ => destruct p
  end.

Ltac wp_steps := repeat wp_step.

(** ** The startup check of the basics notebook *)

Lemma slice_to_length n s : (String.length s <= n)%nat -> Py.slice_to n s = s.
Proof.
  unfold Py.slice_to. revert n.
  induction s as [|c s IH]; intros [|n] Hlen; simpl in *; try done; try lia.
  f_equal. apply IH. lia.
Qed.

Lemma slice_last_length n s : (String.length s <= n)%nat -> Py.slice_last n s = s.
Proof.
  unfold Py.slice_last. intros Hlen.
  replace (String.length s - n)%nat with 0%nat by lia. by destruct s.
Qed.

(** The report is a function of the two slices alone. *)
Lemma api_key_report_slices k :
  Basics.api_key_report (Some k) =
    if decide (Py.slice_to 4 k = "") then "No API key found"
    else "API key found: " +:+ (Py.slice_to 4 k +:+ "..." +:+ Py.slice_last 4 k).
Proof. by destruct k. Qed.

(** Two keys with the same first four and the same last four characters are
    reported by the same line, and an unset key is reported as missing. *)
Lemma api_key_report_noninterference k1 k2 :
  Py.slice_to 4 k1 = Py.slice_to 4 k2 ->
  Py.slice_last 4 k1 = Py.slice_last 4 k2 ->
  Basics.api_key_report (Some k1) = Basics.api_key_report (Some k2).
Proof. intros H1 H2. by rewrite !api_key_report_slices, H1, H2. Qed.

Lemma api_key_report_unset : Basics.api_key_report None = "No API key found".
Proof. done. Qed.

(** A key of at most four characters is printed whole, twice. *)
Lemma api_key_report_short k :
  (0 < String.length k <= 4)%nat ->
  Basics.api_key_report (Some k) = "API key found: " +:+ (k +:+ "..." +:+ k).
Proof.
  intros [Hpos Hlen]. unfold Basics.api_key_report.
  rewrite slice_to_length, slice_last_length by done.
  destruct k; simpl in *; [lia | done].
Qed.

(** C10, at the key "abc": the startup check prints the line
    "API key found: abc...abc", which contains the whole key; the
    environment [OPENAI_API_KEY=abc] makes the notebook print it. *)
Theorem api_key_report_reveals_short_key :
  Basics.api_key_report (Some "abc") = "API key found: abc...abc" /\
  Py.str_contains "abc" (Basics.api_key_report (Some "abc")) = true /\
  stdout (@Basics.cell_startup (Replay.basics [] ["Yes."])
            (fresh {[ "OPENAI_API_KEY" := "abc" ]})).1
    = ["Current working directory: /home/student/1. Basics"; "API key found: abc...abc"].
Proof. split; [|split]; vm_compute; reflexivity. Qed.

(** ** The tool-routing loop *)

Section Routing.
Context {W : Tools.World}.
Implicit Types (tool_mapping : gmap string Tools.tool) (s : nbstate).

Lemma routed_nil s : routed s [] [] = s.
Proof. destruct s. unfold routed. simpl. by rewrite !app_nil_r. Qed.

Lemma routed_cons s tc tcs out outs :
  routed (routed s [tc] [out]) tcs outs = routed s (tc :: tcs) (out :: outs).
Proof. unfold routed. simpl. by rewrite <- !app_assoc. Qed.

Lemma route_one_ok tool_mapping tc out s :
  answers tool_mapping tc out ->
  Tools.route_one tool_mapping tc s = (routed s [tc] [out], inr tt).
Proof.
  intros (t & Hlookup & Hinvoke).
  unfold Tools.route_one, mbind, nb_bind, getitem, ext. rewrite Hlookup. simpl.
  by rewrite Hinvoke.
Qed.

Lemma route_one_key_error tool_mapping tc s :
  tool_mapping !! Py.lower (tc_name tc) = None ->
  Tools.route_one tool_mapping tc s = (s, inl (KeyError (Py.lower (tc_name tc)))).
Proof.
  intros Hlookup. unfold Tools.route_one, mbind, nb_bind, getitem.
  by rewrite Hlookup.
Qed.

(** What one iteration can do: answer the call, or raise. *)
Lemma route_one_cases tool_mapping tc s :
  (exists out, answers tool_mapping tc out /\
               Tools.route_one tool_mapping tc s = (routed s [tc] [out], inr tt)) \/
  (exists e, (Tools.route_one tool_mapping tc s).2 = inl e).
Proof.
  destruct (tool_mapping !! Py.lower (tc_name tc)) as [t|] eqn:Hlookup.
  - destruct (Tools.tool_invoke t (tc_args tc)) as [e|out] eqn:Hinvoke.
    + right. exists e. unfold Tools.route_one, mbind, nb_bind, getitem, ext.
      rewrite Hlookup. simpl. by rewrite Hinvoke.
    + left. exists out. assert (answers tool_mapping tc out) by (by exists t).
      eauto using route_one_ok.
  - right. eexists. by rewrite route_one_key_error.
Qed.

Lemma for_each_cons {A} (x : A) xs body s :
  for_each (x :: xs) body s =
    match body x s with
    | (s1, inr _) => for_each xs body s1
    | (s1, inl e) => (s1, inl e)
    end.
Proof. done. Qed.

Lemma route_ok tool_mapping tcs outs s :
  Forall2 (answers tool_mapping) tcs outs ->
  for_each tcs (Tools.route_one tool_mapping) s = (routed s tcs outs, inr tt).
Proof.
  intros Hall. revert s.
  induction Hall as [|tc out tcs outs Hhead _ IH]; intros s.
  - by rewrite routed_nil.
  - rewrite for_each_cons, (route_one_ok _ _ out) by done.
    by rewrite IH, routed_cons.
Qed.

Lemma route_stops_at_missing_key tool_mapping before tc after outs s :
  Forall2 (answers tool_mapping) before outs ->
  tool_mapping !! Py.lower (tc_name tc) = None ->
  for_each (before ++ tc :: after) (Tools.route_one tool_mapping) s
    = (routed s before outs, inl (KeyError (Py.lower (tc_name tc)))).
Proof.
  intros Hall Hmissing. revert s.
  induction Hall as [|tc' out tcs outs Hhead _ IH]; intros s; simpl app.
  - by rewrite for_each_cons, route_one_key_error, routed_nil.
  - rewrite for_each_cons, (route_one_ok _ _ out) by done.
    by rewrite IH, routed_cons.
Qed.

Lemma route_one_raises tool_mapping tc t e s :
  tool_mapping !! Py.lower (tc_name tc) = Some t ->
  Tools.tool_invoke t (tc_args tc) = inl e ->
  Tools.route_one tool_mapping tc s
  = (NbState (environ s)
       (calls s ++ [Event "tool.invoke" (PArgs (tc_args tc)) (PExn e) NoKey])
       (stdout s) (messages s), inl e).
Proof.
  intros Hlookup Hinvoke.
  unfold Tools.route_one, mbind, nb_bind, getitem, ext. rewrite Hlookup. simpl.
  by rewrite Hinvoke.
Qed.

Lemma route_stops_at_failed_invocation tool_mapping before tc after outs t e s :
  Forall2 (answers tool_mapping) before outs ->
  tool_mapping !! Py.lower (tc_name tc) = Some t ->
  Tools.tool_invoke t (tc_args tc) = inl e ->
  for_each (before ++ tc :: after) (Tools.route_one tool_mapping) s
  = (NbState (environ s)
       (calls s ++ tool_events before outs ++
          [Event "tool.invoke" (PArgs (tc_args tc)) (PExn e) NoKey])
       (stdout s) (messages s ++ tool_messages before outs),
     inl e).
Proof.
  intros Hall Hlookup Hinvoke. revert s.
  induction Hall as [|tc' out tcs outs Hhead _ IH]; intros s; simpl app.
  - rewrite for_each_cons, (route_one_raises _ _ t e) by done.
    unfold tool_messages. simpl. by rewrite app_nil_r.
  - rewrite for_each_cons, (route_one_ok _ _ out) by done.
    rewrite IH. unfold routed. simpl. by rewrite <- !app_assoc.
Qed.

Lemma route_missing_key_raises tool_mapping tcs tc s :
  tc ∈ tcs ->
  tool_mapping !! Py.lower (tc_name tc) = None ->
  exists e, (for_each tcs (Tools.route_one tool_mapping) s).2 = inl e.
Proof.
  intros Hin Hmissing. revert s.
  induction tcs as [|tc' tcs IH]; intros s; [by apply elem_of_nil in Hin|].
  rewrite for_each_cons.
  destruct (route_one_cases tool_mapping tc' s)
    as [(out & (t & Ht & _) & ->)|[e He]].
  - apply elem_of_cons in Hin as [->|Hin]; [congruence | by apply IH].
  - destruct (Tools.route_one tool_mapping tc' s) as [s1 [e1|[]]]; simpl in *; eauto.
    congruence.
Qed.

(** A loop that finished answered every call. *)
Lemma route_inv tool_mapping tcs s s' :
  for_each tcs (Tools.route_one tool_mapping) s = (s', inr tt) ->
  exists outs, Forall2 (answers tool_mapping) tcs outs /\ s' = routed s tcs outs.
Proof.
  revert s. induction tcs as [|tc tcs IH]; intros s Hrun.
  - exists []. split; [constructor|]. rewrite routed_nil.
    by injection Hrun as <-.
  - rewrite for_each_cons in Hrun.
    destruct (route_one_cases tool_mapping tc s) as [(out & Hout & Hone)|[e He]].
    + rewrite Hone in Hrun. apply IH in Hrun as (outs & Hall & ->).
      exists (out :: outs). split; [by constructor|]. by rewrite routed_cons.
    + destruct (Tools.route_one tool_mapping tc s) as [s1 [e1|[]]]; simpl in *;
        congruence.
Qed.

Lemma tool_messages_length tcs outs :
  length tcs = length outs -> length (tool_messages tcs outs) = length tcs.
Proof. intros Hlen. unfold tool_messages. rewrite length_zip_with. lia. Qed.

Lemma tool_messages_lookup tcs outs i tc out :
  tcs !! i = Some tc -> outs !! i = Some out ->
  tool_messages tcs outs !! i = Some (ToolMessage out (tc_id tc)).
Proof.
  intros Htc Hout. unfold tool_messages. rewrite lookup_zip_with, Htc. simpl.
  by rewrite Hout.
Qed.

End Routing.

Lemma wp_cell_route `{W : Tools.World} tool_mapping result
    (Q : nbstate -> exn + unit -> Prop) s :
  (forall outs, Forall2 (answers tool_mapping) (ai_tool_calls result) outs ->
     Q (routed s (ai_tool_calls result) outs) (inr tt)) ->
  (forall s1 e, Q s1 (inl e)) ->
  wp (Tools.cell_route tool_mapping result) Q s.
Proof.
  intros Hok Hfail. unfold wp, Tools.cell_route.
  destruct (for_each _ _ s) as [s1 [e|[]]] eqn:Hrun; simpl; [apply Hfail|].
  apply route_inv in Hrun as (outs & Hall & ->). by apply Hok.
Qed.

(** C9, as amended: when every tool call names a tool of [tool_mapping]
    whose invocation returns an output, the loop ends normally and has
    appended to [messages] exactly one [ToolMessage] per tool call, in the
    order of the calls, each carrying the output of its call and the id of
    its call; a call whose lowercased name is not a key makes the lookup
    raise [KeyError]: the loop stops there, keeps the messages of the calls
    before it, and never ends normally; a call whose name is a key but whose
    invocation raises ends the loop in the same way, with the exception of
    the tool and no message for that call. *)
Theorem tool_routing_pairs_messages_with_calls `{W : Tools.World}
    (tool_mapping : gmap string Tools.tool) (result : ai_message) (s : nbstate) :
  (forall outs,
     Forall2 (answers tool_mapping) (ai_tool_calls result) outs ->
     let out := Tools.cell_route tool_mapping result s in
     out.2 = inr tt /\
     messages out.1 = messages s ++ tool_messages (ai_tool_calls result) outs /\
     length (messages out.1) = (length (messages s) + length (ai_tool_calls result))%nat /\
     forall i tc, ai_tool_calls result !! i = Some tc ->
       exists o, outs !! i = Some o /\
                 messages out.1 !! (length (messages s) + i)%nat
                   = Some (ToolMessage o (tc_id tc))) /\
  (forall before tc after outs,
     ai_tool_calls result = before ++ tc :: after ->
     Forall2 (answers tool_mapping) before outs ->
     tool_mapping !! Py.lower (tc_name tc) = None ->
     let out := Tools.cell_route tool_mapping result s in
     out.2 = inl (KeyError (Py.lower (tc_name tc))) /\
     messages out.1 = messages s ++ tool_messages before outs) /\
  (forall tc,
     tc ∈ ai_tool_calls result ->
     tool_mapping !! Py.lower (tc_name tc) = None ->
     exists e, (Tools.cell_route tool_mapping result s).2 = inl e) /\
  (forall before tc after outs t e,
     ai_tool_calls result = before ++ tc :: after ->
     Forall2 (answers tool_mapping) before outs ->
     tool_mapping !! Py.lower (tc_name tc) = Some t ->
     Tools.tool_invoke t (tc_args tc) = inl e ->
     let out := Tools.cell_route tool_mapping result s in
     out.2 = inl e /\
     messages out.1 = messages s ++ tool_messages before outs /\
     length (messages out.1) = (length (messages s) + length before)%nat).
Proof.
  unfold Tools.cell_route. split_and!.
  - intros outs Hall. cbv zeta. rewrite (route_ok _ _ outs) by done.
    cbn [fst snd routed messages].
    pose proof (Forall2_length _ _ _ Hall) as Hlen.
    repeat split.
    + rewrite length_app, tool_messages_length; done.
    + intros i tc Htc.
      destruct (outs !! i) as [o|] eqn:Ho.
      * exists o. split; [done|].
        rewrite lookup_app_r by lia.
        replace (length (messages s) + i - length (messages s))%nat with i by lia.
        by apply tool_messages_lookup.
      * apply lookup_ge_None in Ho. apply lookup_lt_Some in Htc. lia.
  - intros before tc after outs -> Hall Hmissing. cbv zeta.
    by rewrite (route_stops_at_missing_key _ _ _ _ outs).
  - intros tc Hin Hmissing. by eapply route_missing_key_raises.
  - intros before tc after outs t e -> Hall Hlookup Hinvoke. cbv zeta.
    rewrite (route_stops_at_failed_invocation _ _ _ _ outs t e) by done.
    cbn [fst snd messages]. split_and!; [done | done |].
    rewrite length_app, tool_messages_length; [done|].
    by eapply Forall2_length.
Qed.

Lemma tool_routing_pairs_messages_with_calls_witness :
  messages
    (@Tools.cell_route (Replay.tools [])
       (Tools.tool_mapping
          (Tools.Tool "fake_weather_api" Tools.fake_weather_api)
          (Tools.Tool "outdoor_seating_availability" Tools.outdoor_seating_availability))
       (AiMessage "" [Replay.weather_call; Replay.seating_call])
       (fresh ∅)).1
  = [] ++ tool_messages [Replay.weather_call; Replay.seating_call]
            ["Sunny, 22°C"; "Outdoor seating is available."].
Proof.
  refine (proj1 (proj2 (proj1
    (@tool_routing_pairs_messages_with_calls (Replay.tools []) _
       (AiMessage "" [Replay.weather_call; Replay.seating_call]) (fresh ∅))
    ["Sunny, 22°C"; "Outdoor seating is available."] _))).
  repeat constructor.
  - exists (Tools.Tool "fake_weather_api" Tools.fake_weather_api).
    split; vm_compute; reflexivity.
  - exists (Tools.Tool "outdoor_seating_availability" Tools.outdoor_seating_availability).
    split; vm_compute; reflexivity.
Defined.

(** C9, as the specification words it, fails when a tool call lacks the
    argument of its tool: the names of the three calls are keys of the
    mapping, the second invocation raises, and one tool message is appended
    for three tool calls. *)
Lemma tool_messages_not_paired_when_names_are_keys :
  ~ tool_messages_paired_when_names_are_keys.
Proof.
  intros Hclaim.
  specialize (Hclaim (Replay.tools [])
    (Tools.tool_mapping
       (Tools.Tool "fake_weather_api" Tools.fake_weather_api)
       (Tools.Tool "outdoor_seating_availability" Tools.outdoor_seating_availability))
    (AiMessage "" [Replay.weather_call;
                   ToolCall "outdoor_seating_availability" ∅ "call_2";
                   Replay.seating_call])
    (fresh ∅)).
  assert (1 = 3)%nat as Habsurd; [|discriminate Habsurd].
  apply Hclaim. repeat constructor; vm_compute; eauto.
Qed.

(** The conversation of the recorded session, replayed. *)
Example recorded_conversation :
  messages (@Tools.notebook (Replay.tools [Replay.weather_call; Replay.seating_call])
              (fresh ∅)).1
  = [ HumanMessage Tools.question2;
      AIMessage (AiMessage "" [Replay.weather_call; Replay.seating_call]);
      ToolMessage "Sunny, 22°C" "call_0MyvdnQotPWUwxWrRBSRaeYZ";
      ToolMessage "Outdoor seating is available." "call_ZbDGmtMhtjnrldpQoyfNmSrc" ].
Proof. vm_compute. reflexivity. Qed.

(** A tool name the mapping does not hold ends the cell with [KeyError]. *)
Example unknown_tool_raises :
  (@Tools.cell_route (Replay.tools [])
     (Tools.tool_mapping
        (Tools.Tool "fake_weather_api" Tools.fake_weather_api)
        (Tools.Tool "outdoor_seating_availability" Tools.outdoor_seating_availability))
     (AiMessage "" [Replay.weather_call; ToolCall "Calculator" ∅ "call_1"])
     (fresh ∅)).2
  = inl (KeyError "calculator").
Proof. vm_compute. reflexivity. Qed.

(** ** Who routes the tool calls *)

Lemma notebook_routing_trace `{W : Tools.World} env :
  wp Tools.notebook (fun s' r =>
    r = inr tt ->
    exists weather seating result final outs before after,
      Tools.tool_decorator "fake_weather_api" Tools.fake_weather_api = inr weather /\
      Tools.tool_decorator "outdoor_seating_availability"
        Tools.outdoor_seating_availability = inr seating /\
      Forall2 (answers (Tools.tool_mapping weather seating))
              (ai_tool_calls result) outs /\
      calls s' =
        before ++
        Event "llm_with_tools.invoke" (PMsgs [HumanMessage Tools.question2])
              (PMsg (AIMessage result)) NoKey ::
        tool_events (ai_tool_calls result) outs ++
        Event "llm_with_tools.invoke"
              (PMsgs ([HumanMessage Tools.question2; AIMessage result] ++
                      tool_messages (ai_tool_calls result) outs))
              (PMsg (AIMessage final)) NoKey :: after /\
      callee <$> before =
        ["ChatOpenAI"; "llm.invoke"; "tool"; "tool"; "llm.bind_tools";
         "llm_with_tools.invoke"] /\
      callee <$> after =
        ["ChatOpenAI"; "load_tools"; "initialize_agent"; "agent.invoke";
         "agent.invoke"]) (fresh env).
Proof.
  unfold Tools.notebook, Tools.cell_llm, Tools.cell_plain_invoke, Tools.cell_define_tools,
    Tools.cell_bind_tools, Tools.cell_bound_invoke, Tools.cell_conversation.
  wp_steps; try done.
  apply wp_cell_route; [|done]. intros outs Hall.
  unfold Tools.cell_final_invoke, routed. cbn [environ calls stdout messages].
  wp_steps; try done.
  unfold Tools.cell_math_tools, Tools.cell_initialize_agent, Tools.agent_invoke.
  wp_steps; try done.
  all: intros _; exists t, t0, a1, a2, outs.
  all: eexists [_; _; _; _; _; _], _; split_and!; [done | done | done | | |].
  all: cbn [fresh calls]; rewrite <- ?app_assoc; reflexivity.
Qed.

(** C1, as amended: in every run of the tool-calling notebook that completes,
    the notebook's own code executes the tool calls and routes the responses:
    between the model's answer and the next call to the model it looks each
    tool call up in its [tool_mapping], issues one [tool.invoke] per call, on
    the call's arguments and in the order of the calls, and the next call to
    the model receives the conversation extended by one [ToolMessage] per
    tool call, holding that call's output and id.  These are the only tool
    invocations the notebook issues: the calls before them are [ChatOpenAI],
    [llm.invoke], the two [@tool] definitions, [llm.bind_tools] and a first
    [llm_with_tools.invoke], and the calls after them, in the agent section,
    are [ChatOpenAI], [load_tools], [initialize_agent] and two
    [agent.invoke], so that the notebook invokes no tool itself there. *)
Theorem notebook_routes_tool_calls_itself `{W : Tools.World} env s' :
  Tools.notebook (fresh env) = (s', inr tt) ->
  exists weather seating result final outs before after,
    Tools.tool_decorator "fake_weather_api" Tools.fake_weather_api = inr weather /\
    Tools.tool_decorator "outdoor_seating_availability"
      Tools.outdoor_seating_availability = inr seating /\
    Forall2 (answers (Tools.tool_mapping weather seating))
            (ai_tool_calls result) outs /\
    calls s' =
      before ++
      Event "llm_with_tools.invoke" (PMsgs [HumanMessage Tools.question2])
            (PMsg (AIMessage result)) NoKey ::
      tool_events (ai_tool_calls result) outs ++
      Event "llm_with_tools.invoke"
            (PMsgs ([HumanMessage Tools.question2; AIMessage result] ++
                    tool_messages (ai_tool_calls result) outs))
            (PMsg (AIMessage final)) NoKey :: after /\
      callee <$> before =
        ["ChatOpenAI"; "llm.invoke"; "tool"; "tool"; "llm.bind_tools";
         "llm_with_tools.invoke"] /\
      callee <$> after =
        ["ChatOpenAI"; "load_tools"; "initialize_agent"; "agent.invoke";
         "agent.invoke"].
Proof.
  intros Hrun. by apply (wp_run _ _ _ _ _ (notebook_routing_trace env) Hrun).
Qed.

Lemma notebook_routes_tool_calls_itself_witness :
  exists weather seating result final outs before after,
    @Tools.tool_decorator (Replay.tools [Replay.weather_call; Replay.seating_call])
      "fake_weather_api" Tools.fake_weather_api = inr weather /\
    @Tools.tool_decorator (Replay.tools [Replay.weather_call; Replay.seating_call])
      "outdoor_seating_availability" Tools.outdoor_seating_availability = inr seating /\
    Forall2 (@answers (Replay.tools [Replay.weather_call; Replay.seating_call])
               (Tools.tool_mapping weather seating))
            (ai_tool_calls result) outs /\
    calls (@Tools.notebook (Replay.tools [Replay.weather_call; Replay.seating_call])
             (fresh ∅)).1 =
      before ++
      Event "llm_with_tools.invoke" (PMsgs [HumanMessage Tools.question2])
            (PMsg (AIMessage result)) NoKey ::
      tool_events (ai_tool_calls result) outs ++
      Event "llm_with_tools.invoke"
            (PMsgs ([HumanMessage Tools.question2; AIMessage result] ++
                    tool_messages (ai_tool_calls result) outs))
            (PMsg (AIMessage final)) NoKey :: after /\
      callee <$> before =
        ["ChatOpenAI"; "llm.invoke"; "tool"; "tool"; "llm.bind_tools";
         "llm_with_tools.invoke"] /\
      callee <$> after =
        ["ChatOpenAI"; "load_tools"; "initialize_agent"; "agent.invoke";
         "agent.invoke"].
Proof.
  apply (@notebook_routes_tool_calls_itself
           (Replay.tools [Replay.weather_call; Replay.seating_call]) ∅).
  vm_compute. reflexivity.
Defined.

(** C1, as the specification words it, fails on the recorded conversation:
    the notebook's loop invokes both tools and appends both tool messages. *)
Lemma tool_routing_not_left_to_framework : ~ tool_routing_left_to_framework.
Proof.
  intros Hclaim.
  destruct (Hclaim (Replay.tools [Replay.weather_call; Replay.seating_call]) ∅)
    as [Hnone _].
  apply Hnone. vm_compute. apply (list_elem_of_lookup_2 _ 7%nat). reflexivity.
Qed.

(** ** The agent *)

Section Agent.
Context {W : Tools.World}.

Lemma agent_loop_bound llm tools input cap steps turns run :
  Tools.agent_loop llm tools input cap steps turns = inr run ->
  (Tools.model_turns run <= turns + cap)%nat /\
  (length (Tools.intermediate_steps run) <= length steps + cap)%nat.
Proof.
  revert steps turns. induction cap as [|cap IH]; intros steps turns Hrun; simpl in Hrun.
  - injection Hrun as <-. simpl. lia.
  - destruct (Tools.agent_plan llm input steps) as [e|[output|t i]]; [done| |].
    + injection Hrun as <-. simpl. lia.
    + destruct (Tools.agent_act tools t i) as [e|observation]; [done|].
      apply IH in Hrun. rewrite length_app in Hrun. simpl in Hrun. lia.
Qed.

Lemma agent_loop_returns llm tools input cap steps turns :
  (forall steps', exists step, Tools.agent_plan llm input steps' = inr step) ->
  (forall t i, exists observation, Tools.agent_act tools t i = inr observation) ->
  exists run, Tools.agent_loop llm tools input cap steps turns = inr run.
Proof.
  intros Hplan Hact. revert steps turns.
  induction cap as [|cap IH]; intros steps turns; simpl; [eauto|].
  destruct (Hplan steps) as [[output|t i] ->]; [eauto|].
  destruct (Hact t i) as [observation ->]. apply IH.
Qed.

End Agent.

(** C4, as amended: the notebook calls the framework's agent with five
    arguments (the tool list, the model, the agent type, the verbosity flag
    and the iteration cap 3), and with that cap every run of the agent takes
    at most 3 turns of the model and runs at most 3 tools before it stops;
    it stops with a result whenever the model and the tools answer. *)
Theorem agent_runs_at_most_three_iterations `{W : Tools.World}
    (llm : Tools.LLM) (tools : list Tools.AgentTool) (s : nbstate) :
  let out := Tools.cell_initialize_agent llm tools s in
  exists agent,
    out.2 = inr agent /\
    calls out.1 = calls s ++
      [Event "initialize_agent"
         (PStrs ["tools"; "llm"; "agent=AgentType.ZERO_SHOT_REACT_DESCRIPTION";
                 "verbose=True"; "max_iterations=3"]) PUnit NoKey] /\
    Tools.cfg_tools agent = tools /\
    Tools.cfg_max_iterations agent = 3%nat /\
    Tools.cfg_verbose agent = true /\
    forall input,
      (forall run, Tools.agent_executor agent input = inr run ->
         (Tools.model_turns run <= 3)%nat /\
         (length (Tools.intermediate_steps run) <= 3)%nat) /\
      ((forall steps, exists step, Tools.agent_plan llm input steps = inr step) ->
       (forall t i, exists observation, Tools.agent_act tools t i = inr observation) ->
       exists run, Tools.agent_executor agent input = inr run).
Proof.
  eexists. split_and!; try reflexivity.
  intros input. split.
  - intros run Hrun. apply agent_loop_bound in Hrun as [Hturns Hsteps].
    simpl in Hturns, Hsteps. lia.
  - intros Hplan Hact. by apply agent_loop_returns.
Qed.

Lemma agent_runs_at_most_three_iterations_witness :
  exists run,
    @Tools.agent_executor Replay.restless
      (Tools.AgentConfig Replay.restless ["Calculator"] tt "ZERO_SHOT_REACT_DESCRIPTION" true 3)
      "What is 100501 divided by 259?" = inr run.
Proof.
  destruct (@agent_runs_at_most_three_iterations Replay.restless tt ["Calculator"] (fresh ∅))
    as (agent & Hagent & _ & _ & _ & _ & Hruns).
  injection Hagent as <-.
  apply (proj2 (Hruns "What is 100501 divided by 259?")).
  - intros steps. eexists. reflexivity.
  - intros t i. eexists. reflexivity.
Defined.

(** The cap is reached: a model that never gives a final answer is asked
    three times, three tools are run, and the run is stopped. *)
Example restless_agent_stops_after_three :
  @Tools.agent_executor Replay.restless
    (Tools.AgentConfig Replay.restless ["Calculator"] tt "ZERO_SHOT_REACT_DESCRIPTION" true 3)
    "q"
  = inr (Tools.AgentRun "Agent stopped due to iteration limit or time limit."
           [("Calculator", "q", "Answer: 42"); ("Calculator", "q", "Answer: 42");
            ("Calculator", "q", "Answer: 42")] 3).
Proof. reflexivity. Qed.

(** C4, as the specification words it, fails: the call that configures the
    agent passes five arguments, not three. *)
Lemma agent_not_configured_by_three_settings : ~ agent_configured_by_three_settings.
Proof.
  intros Hclaim.
  destruct (Hclaim (Replay.tools []) ∅
              (Event "initialize_agent" (PStrs Tools.initialize_agent_arguments) PUnit NoKey))
    as (a & b & c & Hthree).
  - vm_compute. apply (list_elem_of_lookup_2 _ 10%nat). reflexivity.
  - reflexivity.
  - discriminate Hthree.
Qed.

(** ** The RAG notebook: the overview pipeline *)

Ltac trace_eq := cbn [fresh calls]; rewrite <- ?app_assoc; reflexivity.






(** The prompt the replayed model receives holds the text of the retrieved
    split. *)
Example overview_prompt_holds_retrieved_text :
  calls (@Rag.cell_overview
           (Replay.rag [] [Document "Task decomposition splits a task." []] (fun _ => []))
           (fresh ∅)).1 !! 11%nat
  = Some (Event "llm.invoke"
            (PStr ("Question: What is Task Decomposition? Context: " +:+
                   "Task decomposition splits a task." +:+ " Answer:"))
            (PMsg (AIMessage (AiMessage "Malcolm is the son of King Duncan." [])))
            NoKey).
Proof. vm_compute. reflexivity. Qed.

(** The context of the prompt is the text of the retrieved splits. *)
Example format_docs_joins_page_contents :
  Rag.format_docs [Document "first" []; Document "second" [("source", "blog")]]
  = "first" +:+ nl +:+ nl +:+ "second".
Proof. reflexivity. Qed.

(** ** The RAG notebook: retrieval and generation combined by hand *)

Lemma manual_rag_wp `{W : Rag.World} s :
  wp (docs ← Rag.cell_shakespeare; Rag.cell_manual_rag docs) (fun s' r =>
    forall answer, r = inr answer ->
    exists db docs doc rest prompt llm text before,
      Rag.similarity_search db Rag.query = inr docs /\
      docs = doc :: rest /\
      Rag.PromptTemplate_from_template Rag.manual_template = inr prompt /\
      Rag.prompt_format prompt (page_content doc) Rag.query = inr text /\
      Rag.llm_invoke llm (Text text) = inr answer /\
      calls s' = before ++
        [ Event "db.similarity_search" (PStr Rag.query) (PDocs docs) NoKey;
          Event "PromptTemplate.from_template" (PStr Rag.manual_template) PUnit NoKey;
          Event "ChatOpenAI" (PStrs ["temperature=0.0"; "model=gpt-4o-mini"]) PUnit
                (UsesKey (resolve_key None (environ s)));
          Event "prompt.format" (PStrs [page_content doc; Rag.query]) (PStr text) NoKey;
          Event "llm.invoke" (PStr text) (PMsg (AIMessage answer)) NoKey ]) s.
Proof.
  unfold Rag.cell_shakespeare, Rag.cell_manual_rag.
  wp_steps; try done.
  intros answer [= <-]. simplify_eq.
  do 7 eexists. eexists (calls s ++ [_; _; _; _; _; _]).
  split_and!; [first [eassumption | reflexivity] .. |].
  trace_eq.
Qed.

(** C5, as amended: retrieval-augmented generation is also done by the
    notebook's own code over third-party components: whenever the two cells
    complete, the notebook has taken the first document that
    [db.similarity_search] returned for the query, has formatted its text and
    the query into its own prompt template, and has itself called the model
    on that prompt. *)
Theorem manual_rag_combines_retrieval_and_generation `{W : Rag.World}
    (s s' : nbstate) (answer : ai_message) :
  (docs ← Rag.cell_shakespeare; Rag.cell_manual_rag docs) s = (s', inr answer) ->
  exists db docs doc rest prompt llm text before,
    Rag.similarity_search db Rag.query = inr docs /\
    docs = doc :: rest /\
    Rag.PromptTemplate_from_template Rag.manual_template = inr prompt /\
    Rag.prompt_format prompt (page_content doc) Rag.query = inr text /\
    Rag.llm_invoke llm (Text text) = inr answer /\
    calls s' = before ++
      [ Event "db.similarity_search" (PStr Rag.query) (PDocs docs) NoKey;
        Event "PromptTemplate.from_template" (PStr Rag.manual_template) PUnit NoKey;
        Event "ChatOpenAI" (PStrs ["temperature=0.0"; "model=gpt-4o-mini"]) PUnit
              (UsesKey (resolve_key None (environ s)));
        Event "prompt.format" (PStrs [page_content doc; Rag.query]) (PStr text) NoKey;
        Event "llm.invoke" (PStr text) (PMsg (AIMessage answer)) NoKey ].
Proof.
  intros Hrun. exact (wp_run _ _ _ _ _ (manual_rag_wp s) Hrun answer eq_refl).
Qed.

Lemma manual_rag_combines_retrieval_and_generation_witness :
  let W := Replay.rag [] [Document "MALCOLM. Let us seek out some desolate shade" []]
             (fun _ => []) in
  exists db docs doc rest prompt llm text before,
    @Rag.similarity_search W db Rag.query = inr docs /\
    docs = doc :: rest /\
    @Rag.PromptTemplate_from_template W Rag.manual_template = inr prompt /\
    @Rag.prompt_format W prompt (page_content doc) Rag.query = inr text /\
    @Rag.llm_invoke W llm (Text text) = inr (AiMessage "Malcolm is the son of King Duncan." []) /\
    calls (@mbind NB _ _ _ (@Rag.cell_manual_rag W) (@Rag.cell_shakespeare W) (fresh ∅)).1
    = before ++
      [ Event "db.similarity_search" (PStr Rag.query) (PDocs docs) NoKey;
        Event "PromptTemplate.from_template" (PStr Rag.manual_template) PUnit NoKey;
        Event "ChatOpenAI" (PStrs ["temperature=0.0"; "model=gpt-4o-mini"]) PUnit
              (UsesKey (resolve_key None (environ (fresh ∅))));
        Event "prompt.format" (PStrs [page_content doc; Rag.query]) (PStr text) NoKey;
        Event "llm.invoke" (PStr text)
              (PMsg (AIMessage (AiMessage "Malcolm is the son of King Duncan." []))) NoKey ].
Proof.
  intros W.
  apply (@manual_rag_combines_retrieval_and_generation W (fresh ∅)).
  vm_compute. reflexivity.
Defined.

(** C5, as the specification words it, fails on a run of the RAG notebook:
    the documents that [db.similarity_search] returned reach, through the
    notebook's own formatting, the prompt of the notebook's call to the
    model. *)
Lemma rag_not_only_through_prebuilt_pipeline : ~ rag_only_through_prebuilt_pipeline.
Proof.
  intros Hclaim.
  apply (Hclaim (Replay.rag [] [Document "MALCOLM. Let us seek out some desolate shade" []]
                   (fun _ => []))
                numpy_real ∅).
  exists 23%nat, 27%nat,
    (Event "db.similarity_search" (PStr Rag.query)
       (PDocs [Document "MALCOLM. Let us seek out some desolate shade" []]) NoKey),
    (Event "llm.invoke"
       (PStr (format_fields
                [("context", "MALCOLM. Let us seek out some desolate shade");
                 ("query", Rag.query)] Rag.manual_template None))
       (PMsg (AIMessage (AiMessage "Malcolm is the son of King Duncan." []))) NoKey),
    [Document "MALCOLM. Let us seek out some desolate shade" []],
    (Document "MALCOLM. Let us seek out some desolate shade" []),
    (format_fields
       [("context", "MALCOLM. Let us seek out some desolate shade");
        ("query", Rag.query)] Rag.manual_template None).
  split_and!; [lia | vm_compute; reflexivity | vm_compute; reflexivity | reflexivity
              | apply list_elem_of_here | reflexivity | reflexivity
              | vm_compute; reflexivity].
Qed.

(** ** Cosine similarity *)

Lemma np_divide_nonzero x y : y <> 0%R -> np_divide x y = Quot (x / y).
Proof. intros Hy. unfold np_divide. by destruct (Req_dec_T y 0). Qed.

Lemma norm_singleton x : (0 <= x)%R -> norm [x] = x.
Proof.
  intros Hx. unfold norm. simpl.
  replace (x * x + 0)%R with (x * x)%R by lra. by apply sqrt_square.
Qed.

(** What the function does with any numpy: three calls, then its own
    product and division. *)
Lemma cosine_similarity_run `{N : Rag.Numpy} vec1 vec2 s :
  Rag.cosine_similarity vec1 vec2 s =
    match Rag.np_dot vec1 vec2 with
    | inr d =>
        (NbState (environ s)
           (calls s ++
              [ Event "np.dot" (PVecs vec1 vec2) (PNum d) NoKey;
                Event "np.linalg.norm" (PVec vec1) (PNum (Rag.np_norm vec1)) NoKey;
                Event "np.linalg.norm" (PVec vec2) (PNum (Rag.np_norm vec2)) NoKey ])
           (stdout s) (messages s),
         inr (np_divide d (Rag.np_norm vec1 * Rag.np_norm vec2)))
    | inl e =>
        (NbState (environ s)
           (calls s ++ [Event "np.dot" (PVecs vec1 vec2) (PExn e) NoKey])
           (stdout s) (messages s),
         inl e)
    end.
Proof.
  unfold Rag.cosine_similarity, mbind, nb_bind, ext, mret, nb_ret.
  destruct (Rag.np_dot vec1 vec2) as [e|d]; simpl; [done|].
  by rewrite <- !app_assoc.
Qed.

Lemma cosine_similarity_real vec1 vec2 s :
  length vec1 = length vec2 ->
  (@Rag.cosine_similarity numpy_real vec1 vec2 s).2
    = inr (np_divide (dot vec1 vec2) (norm vec1 * norm vec2)).
Proof.
  intros Hlen. rewrite cosine_similarity_run. simpl.
  by rewrite decide_True.
Qed.

(** *** float64 arithmetic *)

(** Every float64 is nan, a zero, an infinity or a finite non-zero number. *)
Lemma float_cases (x : float) :
  x = nan \/ x = zero \/ x = neg_zero \/ x = infinity \/ x = neg_infinity \/
  (exists s m e, Prim2SF x = S754_finite s m e /\
                 is_nan x = false /\ is_zero x = false /\ is_infinity x = false).
Proof.
  destruct (Prim2SF x) as [[]|[]| |s m e] eqn:E.
  1-5: rewrite <- (SF2Prim_Prim2SF x), E; simpl; tauto.
  do 5 right. exists s, m, e. split; [done|].
  unfold Prim2SF in E.
  destruct (is_nan x); [discriminate|].
  destruct (is_zero x); [discriminate|].
  destruct (is_infinity x); [discriminate|]. done.
Qed.

Lemma is_zero_cases (x : float) : is_zero x = true -> x = zero \/ x = neg_zero.
Proof.
  intros Hz.
  destruct (float_cases x) as [->|[->|[->|[->|[->|(s & m & e & _ & _ & Hnz & _)]]]]];
    try discriminate Hz; try tauto. congruence.
Qed.

Lemma Prim2SF_zero_inv (x : float) s : Prim2SF x = S754_zero s -> is_zero x = true.
Proof. intros E. rewrite <- (SF2Prim_Prim2SF x), E. by destruct s. Qed.

Lemma Prim2SF_infinity_inv (x : float) s :
  Prim2SF x = S754_infinity s -> is_finite x = false.
Proof. intros E. rewrite <- (SF2Prim_Prim2SF x), E. by destruct s. Qed.

Lemma Prim2SF_nan_inv (x : float) : Prim2SF x = S754_nan -> x = nan.
Proof. intros E. by rewrite <- (SF2Prim_Prim2SF x), E. Qed.

(** A zero times a finite number is a zero. *)
Lemma mul_zero_finite (a b : float) :
  is_zero a = true -> is_finite b = true -> is_zero (a * b) = true.
Proof.
  intros Ha Hb.
  destruct (float_cases b) as [->|[->|[->|[->|[->|(s & m & e & E & _)]]]]];
    try discriminate Hb.
  1-2: by destruct (is_zero_cases a Ha) as [-> | ->].
  destruct (is_zero_cases a Ha) as [-> | ->].
  all: eapply Prim2SF_zero_inv; rewrite mul_spec, E; reflexivity.
Qed.

Lemma mul_finite_zero (a b : float) :
  is_finite a = true -> is_zero b = true -> is_zero (a * b) = true.
Proof.
  intros Ha Hb.
  destruct (float_cases a) as [->|[->|[->|[->|[->|(s & m & e & E & _)]]]]];
    try discriminate Ha.
  1-2: by destruct (is_zero_cases b Hb) as [-> | ->].
  destruct (is_zero_cases b Hb) as [-> | ->].
  all: eapply Prim2SF_zero_inv; rewrite mul_spec, E; reflexivity.
Qed.

(** A zero times an infinity or nan is nan. *)
Lemma mul_zero_not_finite (a b : float) :
  is_zero a = true -> is_finite b = false -> (a * b)%float = nan.
Proof.
  intros Ha Hb.
  destruct (float_cases b) as [->|[->|[->|[->|[->|(s & m & e & E & Hn & _ & Hi)]]]]];
    try discriminate Hb.
  1-3: by destruct (is_zero_cases a Ha) as [-> | ->].
  unfold is_finite in Hb. rewrite Hn, Hi in Hb. discriminate Hb.
Qed.

Lemma mul_not_finite_zero (a b : float) :
  is_finite a = false -> is_zero b = true -> (a * b)%float = nan.
Proof.
  intros Ha Hb.
  destruct (float_cases a) as [->|[->|[->|[->|[->|(s & m & e & E & Hn & _ & Hi)]]]]];
    try discriminate Ha.
  1-3: by destruct (is_zero_cases b Hb) as [-> | ->].
  unfold is_finite in Ha. rewrite Hn, Hi in Ha. discriminate Ha.
Qed.

(** Dividing by a zero gives nan or an infinity, never a finite number. *)
Lemma div_by_zero_not_finite (d z : float) :
  is_zero z = true -> is_finite (d / z) = false.
Proof.
  intros Hz.
  destruct (float_cases d) as [->|[->|[->|[->|[->|(s & m & e & E & _)]]]]].
  1-5: by destruct (is_zero_cases z Hz) as [-> | ->].
  destruct (is_zero_cases z Hz) as [-> | ->].
  all: eapply Prim2SF_infinity_inv; rewrite div_spec, E; reflexivity.
Qed.

(** Dividing by nan gives nan. *)
Lemma div_by_nan (d : float) : (d / nan)%float = nan.
Proof.
  apply Prim2SF_nan_inv. rewrite div_spec.
  change (Prim2SF nan) with S754_nan. by destruct (Prim2SF d).
Qed.

Lemma dot_zero_vector (v : list float) :
  Forall (fun x => is_zero x = true) v -> Float64.dot 0%float v v = 0%float.
Proof.
  induction 1 as [|x v Hx _ IH]; [done|]. simpl.
  by destruct (is_zero_cases x Hx) as [-> | ->].
Qed.

Lemma norm_of_zero_vector (v : list float) :
  Forall (fun x => is_zero x = true) v -> @Float64.np_norm Float64.numpy v = 0%float.
Proof. intros Hv. simpl. by rewrite dot_zero_vector. Qed.

(** C8, as amended: [cosine_similarity] divides, in float64 arithmetic, the
    dot product numpy returns by the product of the two norms numpy returns,
    with no test of the divisor: an exception of [np.dot] (vectors of
    different lengths) propagates, and otherwise the result is that quotient
    whatever the divisor is.  When one norm is a zero and the other is
    finite, the divisor is a zero and the result is nan or an infinity; when
    one norm is a zero and the other is an infinity or nan, the divisor is
    nan, not zero, and the result is nan.  The norm of a zero vector is
    zero, so the division by zero is reached from the arguments of the
    function: for [[0.0]] and [[1.0]] it returns nan. *)
Theorem cosine_similarity_divides_unguarded `{N : Float64.Numpy}
    (vec1 vec2 : list float) :
  let norm_vec1 := Float64.np_norm vec1 in
  let norm_vec2 := Float64.np_norm vec2 in
  let divisor := (norm_vec1 * norm_vec2)%float in
  (forall e, Float64.np_dot vec1 vec2 = inl e ->
     Float64.cosine_similarity vec1 vec2 = inl e) /\
  (forall dot_product, Float64.np_dot vec1 vec2 = inr dot_product ->
     Float64.cosine_similarity vec1 vec2 = inr (dot_product / divisor)%float /\
     ((is_zero norm_vec1 = true /\ is_finite norm_vec2 = true) \/
      (is_finite norm_vec1 = true /\ is_zero norm_vec2 = true) ->
      is_zero divisor = true /\ is_finite (dot_product / divisor) = false) /\
     ((is_zero norm_vec1 = true /\ is_finite norm_vec2 = false) \/
      (is_finite norm_vec1 = false /\ is_zero norm_vec2 = true) ->
      divisor = nan /\ (dot_product / divisor)%float = nan)) /\
  (forall v, Forall (fun x => is_zero x = true) v ->
     @Float64.np_norm Float64.numpy v = 0%float) /\
  @Float64.cosine_similarity Float64.numpy [0%float] [1%float] = inr nan.
Proof.
  cbv zeta. split_and!.
  - intros e He. unfold Float64.cosine_similarity. by rewrite He.
  - intros d Hd. split_and!.
    + unfold Float64.cosine_similarity. by rewrite Hd.
    + intros Hnorms.
      assert (is_zero (Float64.np_norm vec1 * Float64.np_norm vec2) = true) as Hz.
      { destruct Hnorms as [[H1 H2]|[H1 H2]];
          [by apply mul_zero_finite | by apply mul_finite_zero]. }
      split; [done|]. by apply div_by_zero_not_finite.
    + intros Hnorms.
      assert ((Float64.np_norm vec1 * Float64.np_norm vec2)%float = nan) as ->.
      { destruct Hnorms as [[H1 H2]|[H1 H2]];
          [by apply mul_zero_not_finite | by apply mul_not_finite_zero]. }
      split; [done|]. apply div_by_nan.
  - apply norm_of_zero_vector.
  - reflexivity.
Qed.

Lemma cosine_similarity_divides_unguarded_witness :
  is_zero (@Float64.np_norm Float64.numpy [0%float] *
           @Float64.np_norm Float64.numpy [1%float]) = true /\
  is_finite (0 / (@Float64.np_norm Float64.numpy [0%float] *
                  @Float64.np_norm Float64.numpy [1%float])) = false.
Proof.
  refine (proj1 (proj2 (proj1 (proj2
    (@cosine_similarity_divides_unguarded Float64.numpy [0%float] [1%float]))
    0%float eq_refl)) _).
  left. split; reflexivity.
Defined.

(** C8, as the specification words it, fails in float64: for the zero vector
    [[0.0]] and [[2^600]] (about 4.1e180) the second norm overflows to an
    infinity and the divisor is 0 * inf = nan, which is not zero. *)
Lemma zero_vector_does_not_make_divisor_zero : ~ zero_vector_makes_divisor_zero.
Proof.
  intros Hclaim.
  specialize (Hclaim [0%float] [0x1p+600%float] eq_refl).
  assert (false = true) as Habsurd; [|discriminate Habsurd].
  rewrite <- Hclaim; [reflexivity|]. left. by repeat constructor.
Qed.

(** Equal vectors of one element have similarity one. *)
Example cosine_similarity_of_equal_vectors :
  @Float64.cosine_similarity Float64.numpy [2%float] [2%float] = inr 1%float.
Proof. reflexivity. Qed.

(** A vector that is not zero can have the norm zero: the square of 2^-600
    underflows, and the division by zero is reached. *)
Example cosine_similarity_norm_underflows :
  @Float64.np_norm Float64.numpy [0x1p-600%float] = 0%float /\
  @Float64.cosine_similarity Float64.numpy [0x1p-600%float] [1%float] = inr infinity.
Proof. split; reflexivity. Qed.

(** A norm that overflows makes the similarity of a vector with a multiple
    of itself zero. *)
Example cosine_similarity_norm_overflows :
  @Float64.np_norm Float64.numpy [0x1p+600%float] = infinity /\
  @Float64.cosine_similarity Float64.numpy [0x1p+600%float] [1%float] = inr 0%float.
Proof. split; reflexivity. Qed.

(** C2, as amended: the similarity search over the vector store is
    delegated (the documents the notebook gets are those the store or the
    retriever returned), but the cosine similarity of two embedding vectors
    is computed by the notebook's own [cosine_similarity]: it asks numpy for
    the dot product and the two norms, and multiplies and divides itself. *)
Theorem cosine_similarity_computed_by_notebook `{W : Rag.World} `{N : Rag.Numpy}
    (vec1 vec2 : list R) (s : nbstate) :
  (match Rag.np_dot vec1 vec2 with
   | inr d =>
       (Rag.cosine_similarity vec1 vec2 s).2
         = inr (np_divide d (Rag.np_norm vec1 * Rag.np_norm vec2)) /\
       calls (Rag.cosine_similarity vec1 vec2 s).1 = calls s ++
         [ Event "np.dot" (PVecs vec1 vec2) (PNum d) NoKey;
           Event "np.linalg.norm" (PVec vec1) (PNum (Rag.np_norm vec1)) NoKey;
           Event "np.linalg.norm" (PVec vec2) (PNum (Rag.np_norm vec2)) NoKey ]
   | inl e => (Rag.cosine_similarity vec1 vec2 s).2 = inl e
   end) /\
  (forall s' docs, Rag.cell_shakespeare s = (s', inr docs) ->
     exists db, Rag.similarity_search db Rag.query = inr docs) /\
  (forall splits s' retriever docs,
     Rag.cell_retrieval splits s = (s', inr (retriever, docs)) ->
     Rag.retrieve retriever "What is Task Decomposition?" = inr docs).
Proof.
  split_and!.
  - rewrite cosine_similarity_run. by destruct (Rag.np_dot vec1 vec2).
  - intros s' docs Hrun.
    refine (wp_run Rag.cell_shakespeare
              (fun _ r => forall docs, r = inr docs ->
                 exists db, Rag.similarity_search db Rag.query = inr docs)
              s s' _ _ Hrun docs eq_refl).
    unfold Rag.cell_shakespeare. wp_steps; try done.
    intros ? [= <-]. eauto.
  - intros splits s' retriever docs Hrun.
    refine (wp_run (Rag.cell_retrieval splits)
              (fun _ r => forall retriever docs, r = inr (retriever, docs) ->
                 Rag.retrieve retriever "What is Task Decomposition?" = inr docs)
              s s' _ _ Hrun retriever docs eq_refl).
    unfold Rag.cell_retrieval. wp_steps; try done.
    by intros ?? [= <- <-].
Qed.

Lemma cosine_similarity_computed_by_notebook_witness :
  exists db,
    @Rag.similarity_search (Replay.rag [] [Document "MALCOLM." []] (fun _ => [])) db
      Rag.query = inr [Document "MALCOLM." []].
Proof.
  refine (proj1 (proj2 (@cosine_similarity_computed_by_notebook
                          (Replay.rag [] [Document "MALCOLM." []] (fun _ => []))
                          numpy_real [] [] (fresh ∅)))
            (@Rag.cell_shakespeare (Replay.rag [] [Document "MALCOLM." []] (fun _ => []))
               (fresh ∅)).1 _ _).
  vm_compute. reflexivity.
Defined.

(** C2, as the specification words it, fails on the vectors [[2]] and
    [[2]]: numpy returns the dot product 4 and the norms 2 and 2, and the
    score 1 is returned by none of the calls; the notebook computes it. *)
Lemma similarity_not_delegated : ~ similarity_delegated.
Proof.
  intros Hclaim.
  destruct (Hclaim numpy_real ∅ [2%R] [2%R] 1%R) as (ev & Hin & Hres).
  - rewrite cosine_similarity_real by done. rewrite norm_singleton by lra.
    rewrite np_divide_nonzero by lra. simpl. do 2 f_equal. lra.
  - rewrite cosine_similarity_run in Hin. simpl in Hin.
    rewrite norm_singleton in Hin by lra.
    repeat (apply elem_of_cons in Hin as [->|Hin]);
      [| | | by apply elem_of_nil in Hin];
      simpl in Hres; injection Hres as Hres; lra.
Qed.

(** ** The key the notebooks use *)

Lemma dotenv_values_snoc file k v :
  dotenv_values (file ++ [(k, v)]) = <[k := v]> (dotenv_values file).
Proof. unfold dotenv_values. by rewrite foldl_app. Qed.

Lemma dotenv_values_lookup_None file k :
  k ∉ file.*1 -> dotenv_values file !! k = None.
Proof.
  induction file as [|[k' v'] file IH] using rev_ind; intros Hfile; [done|].
  rewrite fmap_app in Hfile. apply not_elem_of_app in Hfile as [Hfile Hne].
  rewrite dotenv_values_snoc, lookup_insert_ne; [by apply IH|].
  intros ->. apply Hne. simpl. apply list_elem_of_here.
Qed.

(** The last binding of a name in the .env file is the one that counts. *)
Lemma dotenv_values_last_binding file1 file2 k v :
  k ∉ file2.*1 -> dotenv_values (file1 ++ (k, v) :: file2) !! k = Some v.
Proof.
  induction file2 as [|[k' v'] file2 IH] using rev_ind; intros Hfile.
  - by rewrite dotenv_values_snoc, lookup_insert_eq.
  - rewrite fmap_app in Hfile. apply not_elem_of_app in Hfile as [Hfile Hne].
    rewrite app_comm_cons, app_assoc, dotenv_values_snoc, lookup_insert_ne; [by apply IH|].
    intros ->. apply Hne. simpl. apply list_elem_of_here.
Qed.

Lemma dotenv_apply_lookup_Some file env k v :
  env !! k = Some v -> dotenv_apply file env !! k = Some v.
Proof. intros Hk. unfold dotenv_apply. by apply lookup_union_Some_l. Qed.

Lemma dotenv_apply_lookup_None file env k :
  env !! k = None -> k ∉ file.*1 -> dotenv_apply file env !! k = None.
Proof.
  intros Hk Hfile. unfold dotenv_apply.
  apply lookup_union_None. split; [done|]. by apply dotenv_values_lookup_None.
Qed.

Lemma dotenv_apply_last_binding file1 file2 env k v :
  env !! k = None -> k ∉ file2.*1 ->
  dotenv_apply (file1 ++ (k, v) :: file2) env !! k = Some v.
Proof.
  intros Hk Hfile. unfold dotenv_apply.
  rewrite lookup_union_r; [|done]. by apply dotenv_values_last_binding.
Qed.

Lemma keys_used_snoc env cs out ms ev :
  keys_used (NbState env (cs ++ [ev]) out ms)
  = keys_used (NbState env cs out ms) ++
    match key ev with UsesKey k => [k] | NoKey => [] end.
Proof.
  unfold keys_used. simpl. rewrite omap_app. simpl. by destruct (key ev).
Qed.

Lemma key_inv_event k s ev out ms :
  (key ev = NoKey \/ key ev = UsesKey k) ->
  key_inv k s ->
  key_inv k (NbState (environ s) (calls s ++ [ev]) out ms).
Proof.
  intros Hev [Henv Hkeys]. split; [done|].
  rewrite keys_used_snoc. apply Forall_app. split; [by destruct s|].
  destruct Hev as [-> | ->]; by repeat constructor.
Qed.

Lemma key_inv_same_calls k s out ms :
  key_inv k s -> key_inv k (NbState (environ s) (calls s) out ms).
Proof. by destruct s. Qed.

Section Keeps.
Context {A B : Type} (I : nbstate -> Prop).

Lemma keeps_ret (a : A) : keeps I (mret a).
Proof. by intros s. Qed.

Lemma keeps_raise e : keeps I (raise (A := A) e).
Proof. by intros s. Qed.

Lemma keeps_bind (c : NB A) (k : A -> NB B) :
  keeps I c -> (forall a, keeps I (k a)) -> keeps I (c ≫= k).
Proof.
  intros Hc Hk s Hs. specialize (Hc s Hs). unfold mbind, nb_bind.
  destruct (c s) as [s1 [e|a]]; simpl in *; [done|]. by apply Hk.
Qed.

Lemma keeps_first (l : list A) : keeps I (first l).
Proof. destruct l; by intros s. Qed.

Lemma keeps_getitem (d : gmap string A) key : keeps I (getitem d key).
Proof. unfold getitem. destruct (d !! key); by intros s. Qed.

Lemma keeps_for_each (xs : list A) body :
  (forall x, keeps I (body x)) -> keeps I (for_each xs body).
Proof.
  intros Hbody. induction xs as [|x xs IH]; [by intros s|].
  intros s Hs. specialize (Hbody x s Hs). simpl. unfold mbind, nb_bind.
  destruct (body x s) as [s1 [e|[]]]; simpl in *; [done|]. by apply IH.
Qed.

Lemma keeps_wp (c : NB A) (Q : nbstate -> exn + A -> Prop) s :
  keeps I c -> I s -> (forall s' r, I s' -> Q s' r) -> wp c Q s.
Proof. intros Hc Hs HQ. apply HQ. by apply Hc. Qed.

End Keeps.

Section KeepsKey.
Context {A : Type} (k : option string).

Lemma keeps_ext name a (show : A -> payload) r : keeps (key_inv k) (ext name a show r).
Proof. intros s Hs. apply key_inv_event; auto. Qed.

Lemma keeps_ext_openai name a (show : A -> payload) r :
  keeps (key_inv k) (ext_openai name None a show r).
Proof.
  intros s Hs. apply key_inv_event; [|done]. right. simpl. f_equal. apply Hs.
Qed.

Lemma keeps_print line : keeps (key_inv k) (print line).
Proof. intros s Hs. by apply key_inv_same_calls. Qed.

Lemma keeps_os_getenv name : keeps (key_inv k) (os_getenv name).
Proof. intros s Hs. apply key_inv_event; auto. Qed.

Lemma keeps_set_messages ms : keeps (key_inv k) (set_messages ms).
Proof. intros s Hs. by apply key_inv_same_calls. Qed.

Lemma keeps_get_messages : keeps (key_inv k) get_messages.
Proof. by intros s Hs. Qed.

Lemma keeps_append_message m : keeps (key_inv k) (append_message m).
Proof. intros s Hs. by apply key_inv_same_calls. Qed.

End KeepsKey.

Ltac keeps_step :=
  lazymatch goal with
  | |- keeps _ (mbind _ _) => apply keeps_bind; [|intros ?]
  | |- keeps _ (mret _) => apply keeps_ret
  | |- keeps _ (raise _) => apply keeps_raise
  | |- keeps _ (ext _ _ _ _) => apply keeps_ext
  | |- keeps _ (ext_openai _ None _ _ _) => apply keeps_ext_openai
  | |- keeps _ (print _) => apply keeps_print
  | |- keeps _ (os_getenv _) => apply keeps_os_getenv
  | |- keeps _ (set_messages _) => apply keeps_set_messages
  | |- keeps _ get_messages => apply keeps_get_messages
  | |- keeps _ (append_message _) => apply keeps_append_message
  | |- keeps _ (first _) => apply keeps_first
  | |- keeps _ (getitem _ _) => apply keeps_getitem
  | |- keeps _ (for_each _ _) => apply keeps_for_each; intros ?
  | |- keeps _ (let '(_, _) := ?p in _) => destruct p
  end.

Lemma tools_notebook_keeps_key `{W : Tools.World} k : keeps (key_inv k) Tools.notebook.
Proof.
  unfold Tools.notebook, Tools.cell_llm, Tools.cell_plain_invoke, Tools.cell_define_tools,
    Tools.cell_bind_tools, Tools.cell_bound_invoke, Tools.cell_conversation,
    Tools.cell_route, Tools.route_one, Tools.cell_final_invoke, Tools.cell_math_tools,
    Tools.cell_initialize_agent, Tools.agent_invoke.
  repeat keeps_step.
Qed.

Lemma rag_cells_keep_key `{W : Rag.World} `{N : Rag.Numpy} k :
  keeps (key_inv k)
    (Rag.cell_overview;;
     docs ← Rag.cell_shakespeare;
     Rag.cell_manual_rag docs;;
     Rag.num_tokens_from_string Rag.question "cl100k_base";;
     '(query_result, document_result) ← Rag.cell_embed;
     Rag.cell_similarity query_result document_result;;
     splits ← Rag.cell_index;
     '(retriever, docs) ← Rag.cell_retrieval splits;
     Rag.cell_generation retriever docs;;
     mret tt).
Proof.
  unfold Rag.cell_overview, Rag.overview_chain, Rag.cell_shakespeare, Rag.cell_manual_rag,
    Rag.num_tokens_from_string, Rag.cell_embed, Rag.cell_similarity,
    Rag.cosine_similarity, Rag.cell_index, Rag.cell_retrieval, Rag.cell_generation,
    context_question, pipe, RunnableLambda, RunnablePassthrough,
    Rag.retriever_step, Rag.prompt_step, Rag.llm_step, Rag.StrOutputParser.
  repeat keeps_step.
Qed.

Lemma basics_request_keeps_key `{W : Basics.World} k :
  keeps (key_inv k)
    (response ← Basics.cell_request; Basics.cell_dump response;; Basics.cell_print response).
Proof.
  unfold Basics.cell_request, Basics.cell_dump, Basics.cell_print.
  repeat keeps_step.
Qed.

Lemma basics_keys `{W : Basics.World} env :
  Forall (fun k => k = dotenv_apply Basics.dotenv_file env !! "OPENAI_API_KEY")
    (keys_used (Basics.notebook (fresh env)).1).
Proof.
  change (wp Basics.notebook
            (fun s' _ => Forall (fun k => k = dotenv_apply Basics.dotenv_file env
                                               !! "OPENAI_API_KEY") (keys_used s'))
            (fresh env)).
  unfold Basics.notebook, Basics.cell_startup.
  set (rest := mbind _ Basics.cell_request).
  wp_steps; try by constructor.
  all: subst rest.
  all: apply (keeps_wp (key_inv (dotenv_apply Basics.dotenv_file env !! "OPENAI_API_KEY")));
    [ apply basics_request_keeps_key
    | split; [reflexivity | by constructor]
    | by intros s' _ [_ Hkeys] ].
Qed.

Lemma rag_keys `{W : Rag.World} `{N : Rag.Numpy} env :
  Forall (fun k => k = dotenv_apply Rag.dotenv_file env !! "OPENAI_API_KEY")
    (keys_used (Rag.notebook (fresh env)).1).
Proof.
  change (wp Rag.notebook
            (fun s' _ => Forall (fun k => k = dotenv_apply Rag.dotenv_file env
                                               !! "OPENAI_API_KEY") (keys_used s'))
            (fresh env)).
  unfold Rag.notebook, Rag.cell_install, Rag.cell_environment.
  set (rest := mbind _ Rag.cell_overview).
  wp_steps; try by constructor.
  all: subst rest.
  all: apply (keeps_wp (key_inv (dotenv_apply Rag.dotenv_file env !! "OPENAI_API_KEY")));
    [ apply rag_cells_keep_key
    | split; [reflexivity | by constructor]
    | by intros s' _ [_ Hkeys] ].
Qed.

Lemma tools_keys `{W : Tools.World} env :
  Forall (fun k => k = env !! "OPENAI_API_KEY") (keys_used (Tools.notebook (fresh env)).1).
Proof.
  apply (tools_notebook_keeps_key (env !! "OPENAI_API_KEY") (fresh env)).
  split; [reflexivity | by constructor].
Qed.

(** C7, as amended: the basics notebook and the RAG notebook read the key
    with [os.getenv] after [load_dotenv()], and every OpenAI call of theirs
    uses the value [OPENAI_API_KEY] has once the .env file is loaded; the
    tool-calling notebook loads no .env file and reads no key, and its OpenAI
    calls use the value the variable has in the environment of the kernel.
    In all three no key is passed in the code, and the key is [None] when
    the variable is set neither in the environment nor in the .env file. *)
Theorem notebooks_take_key_from_environment :
  (forall (W : Basics.World) env,
     let k := dotenv_apply Basics.dotenv_file env !! "OPENAI_API_KEY" in
     (Basics.cell_startup (fresh env)).2 = inr k /\
     Forall (fun k' => k' = k) (keys_used (Basics.notebook (fresh env)).1)) /\
  (forall (W : Rag.World) (N : Rag.Numpy) env,
     let k := dotenv_apply Rag.dotenv_file env !! "OPENAI_API_KEY" in
     (Rag.cell_environment (fresh env)).2 = inr k /\
     Forall (fun k' => k' = k) (keys_used (Rag.notebook (fresh env)).1)) /\
  (forall (W : Tools.World) env,
     Forall (fun k' => k' = env !! "OPENAI_API_KEY")
       (keys_used (Tools.notebook (fresh env)).1)) /\
  (forall file env,
     env !! "OPENAI_API_KEY" = None -> "OPENAI_API_KEY" ∉ file.*1 ->
     dotenv_apply file env !! "OPENAI_API_KEY" = None) /\
  (forall file env v,
     env !! "OPENAI_API_KEY" = Some v ->
     dotenv_apply file env !! "OPENAI_API_KEY" = Some v).
Proof.
  split_and!.
  - intros W env k. split; [reflexivity | apply basics_keys].
  - intros W N env k. split; [reflexivity | apply rag_keys].
  - intros W env. apply tools_keys.
  - intros file env. apply dotenv_apply_lookup_None.
  - intros file env v. apply dotenv_apply_lookup_Some.
Qed.

Lemma notebooks_take_key_from_environment_witness :
  dotenv_apply [("LANGCHAIN_API_KEY", "ls-0")] ∅ !! "OPENAI_API_KEY" = None /\
  dotenv_apply [("OPENAI_API_KEY", "sk-file")] {[ "OPENAI_API_KEY" := "sk-env" ]}
    !! "OPENAI_API_KEY" = Some "sk-env".
Proof.
  split.
  - apply (proj1 (proj2 (proj2 (proj2 notebooks_take_key_from_environment)))).
    + reflexivity.
    + vm_compute. intros Hin. apply list_elem_of_singleton in Hin. discriminate Hin.
  - apply (proj2 (proj2 (proj2 (proj2 notebooks_take_key_from_environment)))).
    vm_compute. reflexivity.
Defined.

(** C7, as the specification words it, fails on the tool-calling notebook:
    with the key only in the .env file, the notebook, which never loads that
    file, has its OpenAI calls use no key. *)
Lemma key_not_read_after_dotenv_in_every_notebook :
  ~ key_read_after_dotenv_in_every_notebook.
Proof.
  intros (_ & _ & Hclaim).
  specialize (Hclaim (Replay.tools []) [("OPENAI_API_KEY", "sk-file")] ∅ None).
  assert (None = Some "sk-file") as Habsurd; [|discriminate Habsurd].
  rewrite Hclaim at 1; [vm_compute; reflexivity|].
  vm_compute. apply list_elem_of_here.
Qed.

(** A name bound twice in the .env file has the value of its last binding,
    as in python-dotenv, and a variable of the process wins over both. *)
Example dotenv_repeated_name :
  dotenv_apply [("OPENAI_API_KEY", "sk-first"); ("OPENAI_API_KEY", "sk-second")] ∅
    !! "OPENAI_API_KEY" = Some "sk-second" /\
  dotenv_apply [("OPENAI_API_KEY", "sk-first"); ("OPENAI_API_KEY", "sk-second")]
    {[ "OPENAI_API_KEY" := "sk-env" ]} !! "OPENAI_API_KEY" = Some "sk-env".
Proof. split; vm_compute; reflexivity. Qed.

(** The key of the .env file is used by the basics notebook. *)
Example basics_uses_dotenv_key :
  keys_used (@Basics.notebook (Replay.basics [("OPENAI_API_KEY", "sk-file")] ["Yes."])
               (fresh ∅)).1 = [Some "sk-file"].
Proof. vm_compute. reflexivity. Qed.

(** ** The order of the calls *)

Lemma tool_events_callees `{W : Tools.World} tool_mapping tcs outs :
  Forall2 (answers tool_mapping) tcs outs ->
  callee <$> tool_events tcs outs = replicate (length tcs) "tool.invoke".
Proof. induction 1; simpl; [done|]. by f_equal. Qed.

Lemma callees_snoc env cs out ms ev :
  callees (NbState env (cs ++ [ev]) out ms) = callees (NbState env cs out ms) ++ [callee ev].
Proof. unfold callees. simpl. by rewrite fmap_app. Qed.

Section Issues.
Context {A B : Type}.

Lemma issues_ret (a : A) : issues (mret a) [].
Proof. intros s s' a' [= <- _]. by rewrite app_nil_r. Qed.

Lemma issues_raise e : issues (raise (A := A) e) [].
Proof. by intros s s' a'. Qed.

Lemma issues_bind (c : NB A) (k : A -> NB B) l1 l2 :
  issues c l1 -> (forall a, issues (k a) l2) -> issues (c ≫= k) (l1 ++ l2).
Proof.
  intros Hc Hk s s' b. unfold mbind, nb_bind.
  destruct (c s) as [s1 [e|a]] eqn:Hrun; [done|]. intros Hrest.
  rewrite (Hk a _ _ _ Hrest), (Hc _ _ _ Hrun). by rewrite app_assoc.
Qed.

Lemma issues_ext name a (show : A -> payload) r : issues (ext name a show r) [name].
Proof. intros [env cs out ms] s' a' [= <- _]. by rewrite callees_snoc. Qed.

Lemma issues_ext_openai name explicit a (show : A -> payload) r :
  issues (ext_openai name explicit a show r) [name].
Proof. intros [env cs out ms] s' a' [= <- _]. by rewrite callees_snoc. Qed.

Lemma issues_first (l : list A) : issues (first l) [].
Proof. destruct l; [apply issues_raise | apply issues_ret]. Qed.

Lemma issues_eq (c : NB A) l l' : issues c l -> l = l' -> issues c l'.
Proof. by intros Hc <-. Qed.

End Issues.

Lemma issues_print line : issues (print line) [].
Proof. intros [env cs out ms] s' a' [= <- _]. unfold callees. simpl. by rewrite app_nil_r. Qed.

Lemma issues_os_getenv name : issues (os_getenv name) ["os.getenv"].
Proof. intros [env cs out ms] s' a' [= <- _]. by rewrite callees_snoc. Qed.

Lemma issues_load_dotenv file : issues (load_dotenv file) ["load_dotenv"].
Proof. intros [env cs out ms] s' a' [= <- _]. by rewrite callees_snoc. Qed.

Ltac issues_step :=
  lazymatch goal with
  | |- issues (mbind _ _) _ => eapply issues_bind; [|intros ?]
  | |- issues (pipe _ _ _) _ => eapply issues_bind; [|intros ?]
  | |- issues (mret _) _ => apply issues_ret
  | |- issues (RunnableLambda _ _) _ => apply issues_ret
  | |- issues (RunnablePassthrough _) _ => apply issues_ret
  | |- issues (ext _ _ _ _) _ => apply issues_ext
  | |- issues (ext_openai _ _ _ _ _) _ => apply issues_ext_openai
  | |- issues (print _) _ => apply issues_print
  | |- issues (os_getenv _) _ => apply issues_os_getenv
  | |- issues (load_dotenv _) _ => apply issues_load_dotenv
  | |- issues (first _) _ => apply issues_first
  | |- issues (let '(_, _) := ?p in _) _ => destruct p
  end.

Lemma basics_calls `{W : Basics.World} : issues Basics.notebook basics_call_order.
Proof.
  eapply issues_eq.
  - unfold Basics.notebook, Basics.cell_startup, Basics.cell_request, Basics.cell_dump,
      Basics.cell_print.
    repeat issues_step.
  - reflexivity.
Qed.

Lemma rag_calls `{W : Rag.World} `{N : Rag.Numpy} : issues Rag.notebook rag_call_order.
Proof.
  eapply issues_eq.
  - unfold Rag.notebook, Rag.cell_install, Rag.cell_environment,
      Rag.cell_overview, Rag.overview_chain, Rag.cell_shakespeare, Rag.cell_manual_rag,
      Rag.num_tokens_from_string, Rag.cell_embed, Rag.cell_similarity,
      Rag.cosine_similarity, Rag.cell_index, Rag.cell_retrieval, Rag.cell_generation,
      context_question, Rag.retriever_step, Rag.prompt_step, Rag.llm_step,
      Rag.StrOutputParser.
    repeat issues_step.
  - reflexivity.
Qed.

Lemma tools_calls `{W : Tools.World} env :
  wp Tools.notebook (fun s' r =>
    r = inr tt ->
    exists llm_with_tools result,
      Tools.bound_invoke llm_with_tools (Messages [HumanMessage Tools.question2])
        = inr result /\
      callees s' = tools_calls_before_loop ++
                   replicate (length (ai_tool_calls result)) "tool.invoke" ++
                   tools_calls_after_loop) (fresh env).
Proof.
  unfold Tools.notebook, Tools.cell_llm, Tools.cell_plain_invoke, Tools.cell_define_tools,
    Tools.cell_bind_tools, Tools.cell_bound_invoke, Tools.cell_conversation.
  wp_steps; try done.
  apply wp_cell_route; [|done]. intros outs Hall.
  unfold Tools.cell_final_invoke, Tools.cell_math_tools, Tools.cell_initialize_agent,
    Tools.agent_invoke, routed.
  cbn [environ calls stdout messages].
  wp_steps; try done.
  all: intros _; do 2 eexists; split; [eassumption|].
  all: unfold callees; cbn [fresh calls]; rewrite <- ?app_assoc, !fmap_app.
  all: by rewrite (tool_events_callees _ _ _ Hall).
Qed.

(** C6, as amended: the calls of the basics notebook and of the RAG notebook
    are issued in one fixed order, whatever the components answer (the
    [if api_key] of the basics notebook only chooses the line printed); in
    the tool-calling notebook the calls before and after the [for] loop are
    in a fixed order, and the loop issues one [tool.invoke] for each tool
    call of the model's answer, so that their number depends on that
    answer. *)
Theorem notebooks_call_order :
  (forall (W : Basics.World) env s',
     Basics.notebook (fresh env) = (s', inr tt) -> callees s' = basics_call_order) /\
  (forall (W : Rag.World) (N : Rag.Numpy) env s',
     Rag.notebook (fresh env) = (s', inr tt) -> callees s' = rag_call_order) /\
  (forall (W : Tools.World) env s',
     Tools.notebook (fresh env) = (s', inr tt) ->
     exists llm_with_tools result,
       Tools.bound_invoke llm_with_tools (Messages [HumanMessage Tools.question2])
         = inr result /\
       callees s' = tools_calls_before_loop ++
                    replicate (length (ai_tool_calls result)) "tool.invoke" ++
                    tools_calls_after_loop).
Proof.
  split_and!.
  - intros W env s' Hrun. exact (basics_calls _ _ _ Hrun).
  - intros W N env s' Hrun. exact (rag_calls _ _ _ Hrun).
  - intros W env s' Hrun. exact (wp_run _ _ _ _ _ (tools_calls env) Hrun eq_refl).
Qed.

Lemma notebooks_call_order_witness :
  callees (@Basics.notebook (Replay.basics [] ["Yes."]) (fresh ∅)).1 = basics_call_order /\
  callees (@Rag.notebook (Replay.rag [] [Document "MALCOLM." []] (fun _ => [])) numpy_real
             (fresh ∅)).1 = rag_call_order.
Proof.
  split.
  - apply (proj1 notebooks_call_order (Replay.basics [] ["Yes."]) ∅).
    vm_compute. reflexivity.
  - apply (proj1 (proj2 notebooks_call_order)
             (Replay.rag [] [Document "MALCOLM." []] (fun _ => [])) numpy_real ∅).
    vm_compute. reflexivity.
Defined.

(** The key does not change the calls of the basics notebook, only the line
    it prints. *)
Example basics_branch_changes_output_only :
  let with_key := @Basics.notebook (Replay.basics [] ["Yes."])
                    (fresh {[ "OPENAI_API_KEY" := "sk-proj-0123456789" ]}) in
  let without_key := @Basics.notebook (Replay.basics [] ["Yes."]) (fresh ∅) in
  callees with_key.1 = callees without_key.1 /\
  stdout with_key.1 !! 1%nat = Some "API key found: sk-p...6789" /\
  stdout without_key.1 !! 1%nat = Some "No API key found".
Proof. vm_compute. done. Qed.

(** C6, as the specification words it, fails on the tool-calling notebook:
    a model that asks for two tools and a model that asks for none give two
    completed runs with different calls. *)
Lemma notebooks_not_straight_line : ~ notebooks_straight_line.
Proof.
  intros (_ & _ & Hclaim).
  specialize (Hclaim (Replay.tools [Replay.weather_call; Replay.seating_call])
                     (Replay.tools []) ∅ ∅).
  assert (completed (@Tools.notebook
                       (Replay.tools [Replay.weather_call; Replay.seating_call])
                       (fresh ∅))) as H1 by (exists tt; vm_compute; reflexivity).
  assert (completed (@Tools.notebook (Replay.tools []) (fresh ∅))) as H2
    by (exists tt; vm_compute; reflexivity).
  specialize (Hclaim H1 H2). vm_compute in Hclaim. discriminate Hclaim.
Qed.

(** * Further properties of the notebooks' code *)

(** ** The startup check, continued *)

Lemma api_key_report_found k :
  k <> "" ->
  Basics.api_key_report (Some k)
  = "API key found: " +:+ (Py.slice_to 4 k +:+ "..." +:+ Py.slice_last 4 k).
Proof. by destruct k. Qed.

(** X1: a key made of four characters, any middle part and four characters
    is reported by its first four and last four characters only, whatever
    the middle part is. *)
Theorem api_key_report_masks_middle (a m b : string) :
  String.length a = 4%nat -> String.length b = 4%nat ->
  Basics.api_key_report (Some (a +:+ m +:+ b)) = "API key found: " +:+ (a +:+ "..." +:+ b).
Proof.
  intros Ha Hb. rewrite api_key_report_found by (by destruct a).
  unfold Py.slice_to, Py.slice_last. rewrite <- Ha at 1. rewrite str_take_app.
  rewrite <- (str_app_assoc a m b).
  replace (String.length ((a +:+ m) +:+ b) - 4)%nat with (String.length (a +:+ m))
    by (rewrite !str_app_length; lia).
  by rewrite str_drop_app.
Qed.

Lemma api_key_report_masks_middle_witness :
  Basics.api_key_report (Some ("sk-p" +:+ "roj-0123456789" +:+ "2mkA"))
  = "API key found: " +:+ ("sk-p" +:+ "..." +:+ "2mkA").
Proof.
  apply (api_key_report_masks_middle "sk-p" "roj-0123456789" "2mkA"); reflexivity.
Defined.

(** X2: the check reports a missing key exactly when the variable is unset
    or set to the empty string. *)
Theorem api_key_report_missing_iff (api_key : option string) :
  Basics.api_key_report api_key = "No API key found" <->
  api_key = None \/ api_key = Some "".
Proof.
  split.
  - destruct api_key as [[|c k]|]; [auto | | auto]. discriminate.
  - by intros [-> | ->].
Qed.

(** X3: a key of one to three characters is determined by the line the check
    prints for it: no other key gives the same line. *)
Theorem api_key_report_determines_short_key (k k' : string) :
  (0 < String.length k < 4)%nat ->
  Basics.api_key_report (Some k) = Basics.api_key_report (Some k') ->
  k = k'.
Proof.
  intros Hlen. rewrite api_key_report_short by lia.
  destruct (decide (k' = "")) as [-> | Hne]; [by destruct k|].
  rewrite (api_key_report_found k') by done.
  intros Heq. apply (inj (String.app _)) in Heq.
  pose proof (f_equal String.length Heq) as Hlens.
  rewrite !str_app_length, slice_to_4_length, slice_last_4_length in Hlens.
  change (String.length "...") with 3%nat in Hlens.
  assert (String.length k' = String.length k) as Hsame by lia.
  rewrite (slice_to_length 4 k') in Heq by lia.
  apply str_app_inj_length in Heq as [-> _]; done.
Qed.

Lemma api_key_report_determines_short_key_witness : "abc" = "abc".
Proof.
  apply (api_key_report_determines_short_key "abc" "abc"); [simpl; lia | reflexivity].
Defined.

(** X4: a key of four characters or more is never determined by the line the
    check prints: another key gives the same line. *)
Theorem api_key_report_hides_long_key (k : string) :
  (4 <= String.length k)%nat ->
  exists k', k' <> k /\ Basics.api_key_report (Some k') = Basics.api_key_report (Some k).
Proof.
  intros Hlen.
  set (m := if decide (String.length k = 9%nat) then "" else "x").
  exists (Py.slice_to 4 k +:+ m +:+ Py.slice_last 4 k). split.
  - intros Heq. apply (f_equal String.length) in Heq.
    rewrite !str_app_length, slice_to_4_length, slice_last_4_length in Heq.
    subst m. destruct (decide (String.length k = 9%nat));
      [change (String.length "") with 0%nat in Heq
      |change (String.length "x") with 1%nat in Heq]; lia.
  - rewrite api_key_report_masks_middle
      by (rewrite ?slice_to_4_length, ?slice_last_4_length; lia).
    by rewrite api_key_report_found by (intros ->; simpl in Hlen; lia).
Qed.

Lemma api_key_report_hides_long_key_witness :
  exists k', k' <> "sk-proj-0123" /\
    Basics.api_key_report (Some k') = Basics.api_key_report (Some "sk-proj-0123").
Proof. apply (api_key_report_hides_long_key "sk-proj-0123"). simpl. lia. Defined.

(** X5: when the completion and its dump are returned, the basics notebook
    prints the content of the first choice only; a completion without
    choices ends the notebook with [IndexError] after the two lines of the
    startup check. *)
Theorem basics_notebook_prints_first_choice `{W : Basics.World} env response dump :
  Basics.chat_completions_create Basics.request_model Basics.request_messages
    = inr response ->
  Basics.model_dump response = inr dump ->
  let out := Basics.notebook (fresh env) in
  let startup :=
    [ "Current working directory: " +:+ Basics.getcwd;
      Basics.api_key_report (dotenv_apply Basics.dotenv_file env !! "OPENAI_API_KEY") ] in
  match Basics.choices response with
  | [] => out.2 = inl IndexError /\ stdout out.1 = startup
  | content :: _ => out.2 = inr tt /\ stdout out.1 = startup ++ [content]
  end.
Proof.
  intros Hcreate Hdump.
  unfold Basics.notebook, Basics.cell_startup, Basics.cell_request, Basics.cell_dump,
    Basics.cell_print, mbind, nb_bind, ext, ext_openai, print, load_dotenv, os_getenv.
  cbn [fst snd fresh environ calls stdout messages].
  rewrite Hcreate. cbn [fst snd environ calls stdout messages]. rewrite Hdump.
  by destruct (Basics.choices response).
Qed.

Lemma basics_notebook_prints_first_choice_witness :
  (@Basics.notebook (Replay.basics [] []) (fresh ∅)).2 = inl IndexError.
Proof.
  exact (proj1 (@basics_notebook_prints_first_choice (Replay.basics [] []) ∅
                  (Basics.ChatCompletion []) "" eq_refl eq_refl)).
Defined.

(** ** The tool-routing loop, continued *)

Lemma lower_char_idem c : Py.lower_char (Py.lower_char c) = Py.lower_char c.
Proof. by destruct c as [[] [] [] [] [] [] [] []]. Qed.

Lemma lower_idem s : Py.lower (Py.lower s) = Py.lower s.
Proof. induction s as [|c s IH]; simpl; [done|]. by rewrite lower_char_idem, IH. Qed.

(** X6: an entry of the mapping under a key that holds an upper-case letter
    is never reached: no tool call is looked up under that key, and routing
    behaves as if the entry were not there. *)
Theorem route_never_reaches_uppercase_key `{W : Tools.World}
    (mapping : gmap string Tools.tool) (k : string) (tc : tool_call) (s : nbstate) :
  Py.lower k <> k ->
  Py.lower (tc_name tc) <> k /\
  Tools.route_one mapping tc s = Tools.route_one (delete k mapping) tc s.
Proof.
  intros Hupper.
  assert (Py.lower (tc_name tc) <> k) as Hne.
  { intros <-. apply Hupper. apply lower_idem. }
  split; [done|]. unfold Tools.route_one, getitem.
  by rewrite lookup_delete_ne.
Qed.

Lemma route_never_reaches_uppercase_key_witness :
  let calculator := Tools.Tool "Calculator" (fun _ => "42") in
  (@Tools.route_one (Replay.tools []) {[ "Calculator" := calculator ]}
     (ToolCall "Calculator" ∅ "call_1") (fresh ∅)).2
  = inl (KeyError "calculator").
Proof.
  intros calculator.
  rewrite (proj2 (@route_never_reaches_uppercase_key (Replay.tools [])
                    {[ "Calculator" := calculator ]} "Calculator"
                    (ToolCall "Calculator" ∅ "call_1") (fresh ∅) ltac:(discriminate))).
  vm_compute. reflexivity.
Defined.

(** What one iteration of the loop does, with the state it leaves. *)
Lemma route_one_outcome `{W : Tools.World} mapping tc s :
  (exists out, answers mapping tc out /\
     Tools.route_one mapping tc s = (routed s [tc] [out], inr tt)) \/
  (mapping !! Py.lower (tc_name tc) = None /\
     Tools.route_one mapping tc s = (s, inl (KeyError (Py.lower (tc_name tc))))) \/
  (exists t e, mapping !! Py.lower (tc_name tc) = Some t /\
     Tools.tool_invoke t (tc_args tc) = inl e /\
     Tools.route_one mapping tc s =
       (NbState (environ s)
          (calls s ++ [Event "tool.invoke" (PArgs (tc_args tc)) (PExn e) NoKey])
          (stdout s) (messages s), inl e)).
Proof.
  destruct (mapping !! Py.lower (tc_name tc)) as [t|] eqn:Hlookup.
  - destruct (Tools.tool_invoke t (tc_args tc)) as [e|out] eqn:Hinvoke.
    + right. right. exists t, e. split_and!; [done..|].
      unfold Tools.route_one, mbind, nb_bind, getitem, ext. rewrite Hlookup. simpl.
      by rewrite Hinvoke.
    + left. exists out. assert (answers mapping tc out) by (by exists t).
      eauto using route_one_ok.
  - right. left. split; [done|]. by apply route_one_key_error.
Qed.

(** X8: when [tool.invoke] raises for a tool call, the loop ends with that
    exception: the failed call is the last one issued, no message is appended
    for it, the messages of the calls before it stay, and the calls after it
    are not processed. *)
Theorem route_stops_when_tool_raises `{W : Tools.World}
    (mapping : gmap string Tools.tool) (content : string)
    (before after : list tool_call) (tc : tool_call) (outs : list string)
    (t : Tools.tool) (e : exn) (s : nbstate) :
  Forall2 (answers mapping) before outs ->
  mapping !! Py.lower (tc_name tc) = Some t ->
  Tools.tool_invoke t (tc_args tc) = inl e ->
  Tools.cell_route mapping (AiMessage content (before ++ tc :: after)) s
  = (NbState (environ s)
       (calls s ++ tool_events before outs ++
          [Event "tool.invoke" (PArgs (tc_args tc)) (PExn e) NoKey])
       (stdout s) (messages s ++ tool_messages before outs),
     inl e).
Proof.
  intros Hall Hlookup Hinvoke. unfold Tools.cell_route. simpl ai_tool_calls. revert s.
  induction Hall as [|tc' out tcs outs Hhead _ IH]; intros s; simpl app.
  - rewrite for_each_cons.
    destruct (route_one_outcome mapping tc s)
      as [(out & (t' & Ht' & Hout) & _) | [[Hnone _] | (t' & e' & Ht' & He' & ->)]].
    + congruence.
    + congruence.
    + assert (t' = t) as -> by congruence. assert (e' = e) as -> by congruence.
      unfold tool_messages. simpl. by rewrite app_nil_r.
  - rewrite for_each_cons, (route_one_ok _ _ out) by done.
    rewrite IH. unfold routed. simpl. by rewrite <- !app_assoc.
Qed.

Lemma route_stops_when_tool_raises_witness :
  (@Tools.cell_route (Replay.tools [])
     (Tools.tool_mapping
        (Tools.Tool "fake_weather_api" Tools.fake_weather_api)
        (Tools.Tool "outdoor_seating_availability" Tools.outdoor_seating_availability))
     (AiMessage "" ([Replay.weather_call] ++
                    ToolCall "outdoor_seating_availability" ∅ "call_2" ::
                    [Replay.seating_call]))
     (fresh ∅)).2
  = inl (Raised "ValidationError: city is required").
Proof.
  rewrite (@route_stops_when_tool_raises (Replay.tools []) _ "" [Replay.weather_call]
             [Replay.seating_call]
             (ToolCall "outdoor_seating_availability" ∅ "call_2")
             ["Sunny, 22°C"]
             (Tools.Tool "outdoor_seating_availability" Tools.outdoor_seating_availability)
             (Raised "ValidationError: city is required") (fresh ∅)).
  - reflexivity.
  - repeat constructor.
    exists (Tools.Tool "fake_weather_api" Tools.fake_weather_api).
    split; vm_compute; reflexivity.
  - vm_compute. reflexivity.
  - vm_compute. reflexivity.
Defined.

(** X9: however the loop ends, it leaves the environment and the printed
    lines alone, keeps the conversation it found as a prefix, appends only
    the tool messages of the calls it answered, which are a prefix of the
    tool calls (all of them when it ends normally), and issues at most one
    call per tool call. *)
Theorem route_keeps_conversation `{W : Tools.World}
    (mapping : gmap string Tools.tool) (result : ai_message) (s : nbstate) :
  let out := Tools.cell_route mapping result s in
  environ out.1 = environ s /\
  stdout out.1 = stdout s /\
  (length (calls out.1) <= length (calls s) + length (ai_tool_calls result))%nat /\
  exists answered outs,
    answered `prefix_of` ai_tool_calls result /\
    Forall2 (answers mapping) answered outs /\
    messages out.1 = messages s ++ tool_messages answered outs /\
    (out.2 = inr tt -> answered = ai_tool_calls result).
Proof.
  unfold Tools.cell_route. cbv zeta.
  generalize (ai_tool_calls result) as tcs. intros tcs. revert s.
  induction tcs as [|tc tcs IH]; intros s.
  - simpl. split_and!; [done | done | lia |].
    exists [], []. split_and!; [done | constructor | by rewrite app_nil_r | done].
  - rewrite for_each_cons.
    destruct (route_one_outcome mapping tc s)
      as [(out & Hout & ->) | [[Hnone ->] | (t & e & Ht & He & ->)]].
    + destruct (IH (routed s [tc] [out]))
        as (Henv & Hstdout & Hcalls & answered & outs & Hpre & Hall & Hmsgs & Hdone).
      rewrite Henv, Hstdout, Hmsgs. unfold routed in Hcalls. unfold routed at 1 2 3.
      cbn [environ stdout calls messages] in Hcalls |- *.
      rewrite length_app in Hcalls. simpl in Hcalls |- *.
      split_and!; [done | done | lia |].
      exists (tc :: answered), (out :: outs).
      split_and!; [by apply prefix_cons | by constructor | by rewrite <- app_assoc |].
      intros Hok. by rewrite Hdone.
    + simpl. split_and!; [done | done | lia |].
      exists [], []. split_and!; [apply prefix_nil | constructor | by rewrite app_nil_r | done].
    + cbn [fst snd environ stdout calls messages]. rewrite length_app. simpl.
      split_and!; [done | done | lia |].
      exists [], []. split_and!; [apply prefix_nil | constructor | by rewrite app_nil_r | done].
Qed.

Lemma route_keeps_conversation_witness :
  exists answered outs,
    tool_messages answered outs
    = tool_messages [Replay.weather_call] ["Sunny, 22°C"] /\
    answered = [Replay.weather_call].
Proof.
  destruct (@route_keeps_conversation (Replay.tools [])
              (Tools.tool_mapping
                 (Tools.Tool "fake_weather_api" Tools.fake_weather_api)
                 (Tools.Tool "outdoor_seating_availability"
                    Tools.outdoor_seating_availability))
              (AiMessage "" [Replay.weather_call]) (fresh ∅))
    as (_ & _ & _ & answered & outs & _ & _ & Hmsgs & Hdone).
  exists answered, outs. split.
  - vm_compute in Hmsgs. symmetry. exact Hmsgs.
  - apply Hdone. vm_compute. reflexivity.
Defined.

(** X10: a run of the tool-calling notebook that completes leaves in
    [messages] the question, the model's answer and one tool message per
    tool call of that answer; the final answer of the model is not
    appended. *)
Theorem tools_notebook_final_conversation `{W : Tools.World} env s' :
  Tools.notebook (fresh env) = (s', inr tt) ->
  exists result outs,
    length outs = length (ai_tool_calls result) /\
    messages s' = [HumanMessage Tools.question2; AIMessage result] ++
                  tool_messages (ai_tool_calls result) outs /\
    length (messages s') = (2 + length (ai_tool_calls result))%nat.
Proof.
  intros Hrun.
  refine (wp_run Tools.notebook
            (fun s' r => r = inr tt ->
               exists result outs,
                 length outs = length (ai_tool_calls result) /\
                 messages s' = [HumanMessage Tools.question2; AIMessage result] ++
                               tool_messages (ai_tool_calls result) outs /\
                 length (messages s') = (2 + length (ai_tool_calls result))%nat)
            (fresh env) s' _ _ Hrun eq_refl).
  unfold Tools.notebook, Tools.cell_llm, Tools.cell_plain_invoke, Tools.cell_define_tools,
    Tools.cell_bind_tools, Tools.cell_bound_invoke, Tools.cell_conversation.
  wp_steps; try done.
  apply wp_cell_route; [|done]. intros outs Hall.
  unfold Tools.cell_final_invoke, Tools.cell_math_tools, Tools.cell_initialize_agent,
    Tools.agent_invoke, routed.
  cbn [environ calls stdout messages].
  wp_steps; try done.
  all: intros _; eexists _, outs.
  all: pose proof (Forall2_length _ _ _ Hall) as Hlen.
  all: split_and!; [done | reflexivity |].
  all: cbn [messages]; rewrite !length_app, tool_messages_length by done; reflexivity.
Qed.

Lemma tools_notebook_final_conversation_witness :
  exists result outs,
    length outs = length (ai_tool_calls result) /\
    messages (@Tools.notebook (Replay.tools [Replay.weather_call; Replay.seating_call])
                (fresh ∅)).1
    = [HumanMessage Tools.question2; AIMessage result] ++
      tool_messages (ai_tool_calls result) outs /\
    length (messages (@Tools.notebook
                        (Replay.tools [Replay.weather_call; Replay.seating_call])
                        (fresh ∅)).1)
    = (2 + length (ai_tool_calls result))%nat.
Proof.
  apply (@tools_notebook_final_conversation
           (Replay.tools [Replay.weather_call; Replay.seating_call]) ∅).
  vm_compute. reflexivity.
Defined.

(** ** Cosine similarity, continued *)

Lemma dot_comm u v : dot u v = dot v u.
Proof.
  revert v. induction u as [|a u IH]; intros [|x v]; simpl; try done.
  rewrite (IH v). lra.
Qed.

Lemma cosine_similarity_result vec1 vec2 s :
  (@Rag.cosine_similarity numpy_real vec1 vec2 s).2 =
    if decide (length vec1 = length vec2)
    then inr (np_divide (dot vec1 vec2) (norm vec1 * norm vec2))
    else inl (Raised "ValueError: shapes not aligned").
Proof.
  rewrite cosine_similarity_run. simpl.
  by destruct (decide (length vec1 = length vec2)).
Qed.

(** X11: the cosine similarity does not depend on the order of its two
    arguments, error included. *)
Theorem cosine_similarity_symmetric (vec1 vec2 : list R) (s : nbstate) :
  (@Rag.cosine_similarity numpy_real vec1 vec2 s).2
  = (@Rag.cosine_similarity numpy_real vec2 vec1 s).2.
Proof.
  rewrite !cosine_similarity_result.
  destruct (decide (length vec1 = length vec2)) as [Hlen|Hlen].
  - rewrite decide_True by done. by rewrite dot_comm, Rmult_comm.
  - rewrite decide_False by done. done.
Qed.

(** X16: when the two embeddings differ in length, [np.dot] raises: the
    similarity cell ends with that error after this single call, no norm is
    computed and nothing is printed. *)
Theorem similarity_cell_rejects_unequal_lengths `{W : Rag.World}
    (query_result document_result : list R) (s : nbstate) :
  length query_result <> length document_result ->
  @Rag.cell_similarity W numpy_real query_result document_result s
  = (NbState (environ s)
       (calls s ++ [Event "np.dot" (PVecs query_result document_result)
                          (PExn (Raised "ValueError: shapes not aligned")) NoKey])
       (stdout s) (messages s),
     inl (Raised "ValueError: shapes not aligned")).
Proof.
  intros Hlen. unfold Rag.cell_similarity, mbind, nb_bind.
  rewrite cosine_similarity_run. simpl. by rewrite decide_False.
Qed.

Lemma similarity_cell_rejects_unequal_lengths_witness :
  (@Rag.cell_similarity (Replay.rag [] [] (fun _ => [])) numpy_real [1%R] [1%R; 2%R]
     (fresh ∅)).2
  = inl (Raised "ValueError: shapes not aligned").
Proof.
  rewrite (@similarity_cell_rejects_unequal_lengths (Replay.rag [] [] (fun _ => []))
             [1%R] [1%R; 2%R] (fresh ∅)); [reflexivity | discriminate].
Defined.

(** ** [format_docs] *)

(** X17: the text of every document handed to [format_docs] is contained in
    the string it returns. *)
Theorem format_docs_contains_every_document (docs : list document) (d : document) :
  d ∈ docs ->
  Py.str_contains (page_content d) (Rag.format_docs docs) = true.
Proof.
  unfold Rag.format_docs. induction docs as [|d1 [|d2 docs] IH]; intros Hin.
  - by apply elem_of_nil in Hin.
  - apply list_elem_of_singleton in Hin as ->. apply str_contains_self.
  - rewrite !fmap_cons, join_cons2.
    apply elem_of_cons in Hin as [-> | Hin].
    + apply str_contains_app_l, str_contains_self.
    + do 2 apply str_contains_app_r. by apply IH.
Qed.

Lemma format_docs_contains_every_document_witness :
  Py.str_contains "second"
    (Rag.format_docs [Document "first" []; Document "second" []; Document "third" []])
  = true.
Proof.
  apply (format_docs_contains_every_document _ (Document "second" [])).
  apply list_elem_of_further, list_elem_of_here.
Defined.

(** X18: the string [format_docs] returns is as long as the texts of the
    documents together, plus two line feeds between each two of them; for no
    document it is empty. *)
Theorem format_docs_length (docs : list document) :
  String.length (Rag.format_docs docs) =
    (sum_list ((fun d => String.length (page_content d)) <$> docs) +
     2 * (length docs - 1))%nat.
Proof.
  unfold Rag.format_docs. induction docs as [|d1 [|d2 docs] IH]; [done | simpl; lia |].
  rewrite !fmap_cons, join_cons2, !str_app_length.
  rewrite !fmap_cons in IH. rewrite IH.
  change (String.length (nl +:+ nl)) with 2%nat. simpl. lia.
Qed.

(** X19: formatting two non-empty lists of documents one after the other
    is formatting each and joining the results by two line feeds. *)
Theorem format_docs_app (docs1 docs2 : list document) :
  docs1 <> [] -> docs2 <> [] ->
  Rag.format_docs (docs1 ++ docs2)
  = Rag.format_docs docs1 +:+ (nl +:+ nl) +:+ Rag.format_docs docs2.
Proof.
  intros H1 H2. unfold Rag.format_docs. rewrite fmap_app.
  apply join_app; [by destruct docs1 | by destruct docs2].
Qed.

Lemma format_docs_app_witness :
  Rag.format_docs ([Document "a" []] ++ [Document "b" []; Document "c" []])
  = Rag.format_docs [Document "a" []] +:+ (nl +:+ nl) +:+
    Rag.format_docs [Document "b" []; Document "c" []].
Proof. apply format_docs_app; discriminate. Defined.

(** ** Retrieval that finds nothing *)

(** X20: when the retriever returns no document, the chain of the overview
    cell does not stop: it calls the prompt with the empty string as context
    and then the model. *)
Theorem overview_chain_runs_on_empty_retrieval `{W : Rag.World}
    (retriever : Rag.Retriever) (prompt : Rag.Prompt) (llm : Rag.LLM)
    (question : string) (input : chat_input) (reply : ai_message) (answer : string)
    (s : nbstate) :
  Rag.retrieve retriever question = inr [] ->
  Rag.prompt_invoke prompt (Rag.CtxText "") question = inr input ->
  Rag.llm_invoke llm input = inr reply ->
  Rag.parse_str reply = inr answer ->
  Rag.overview_chain retriever prompt llm question s
  = (NbState (environ s)
       (calls s ++
          [ Event "retriever.invoke" (PStr question) (PDocs []) NoKey;
            Event "prompt.invoke" (PStr "") (Rag.show_input input) NoKey;
            Event "llm.invoke" (Rag.show_input input) (PMsg (AIMessage reply)) NoKey;
            Event "StrOutputParser.invoke" (PMsg (AIMessage reply)) (PStr answer) NoKey ])
       (stdout s) (messages s),
     inr answer).
Proof.
  intros Hretrieve Hprompt Hllm Hparse.
  unfold Rag.overview_chain, pipe, context_question, RunnableLambda, RunnablePassthrough,
    Rag.retriever_step, Rag.prompt_step, Rag.llm_step, Rag.StrOutputParser,
    mbind, nb_bind, mret, nb_ret, ext.
  rewrite Hretrieve. cbn [fst snd environ calls stdout messages Rag.format_docs fmap
                           list_fmap Py.join Rag.show_context show_result].
  rewrite Hprompt. cbn [fst snd environ calls stdout messages show_result].
  rewrite Hllm. cbn [fst snd environ calls stdout messages show_result].
  rewrite Hparse. cbn [fst snd environ calls stdout messages show_result].
  by rewrite <- !app_assoc.
Qed.

Lemma overview_chain_runs_on_empty_retrieval_witness :
  (@Rag.overview_chain (Replay.rag [] [] (fun _ => [])) ([], 4%nat)
     "Question: {question} Context: {context} Answer:" tt "What is Task Decomposition?"
     (fresh ∅)).2
  = inr "Malcolm is the son of King Duncan.".
Proof.
  rewrite (@overview_chain_runs_on_empty_retrieval (Replay.rag [] [] (fun _ => []))
             ([], 4%nat) "Question: {question} Context: {context} Answer:" tt
             "What is Task Decomposition?" _ _ _ (fresh ∅)
             eq_refl eq_refl eq_refl eq_refl).
  reflexivity.
Defined.

Ltac not_among :=
  let Hin := fresh "Hin" in
  intros Hin;
  repeat (apply elem_of_cons in Hin as [Hin|Hin]; [discriminate Hin|]);
  by apply elem_of_nil in Hin.

(** X21: when the store built by the cell finds no document for the query,
    the cell that prints the first document raises [IndexError]: the two
    cells never complete, the model is never called and nothing is
    printed. *)
Theorem manual_rag_stops_on_empty_retrieval `{W : Rag.World} (s : nbstate) :
  (forall loader documents splitter docs embedding db,
     Rag.TextLoader "shakespeare.txt" = inr loader ->
     Rag.loader_load loader = inr documents ->
     Rag.RecursiveCharacterTextSplitter 1024 200 = inr splitter ->
     Rag.split_documents splitter documents = inr docs ->
     Rag.SentenceTransformerEmbeddings "all-MiniLM-L6-v2" = inr embedding ->
     Rag.Chroma_from_documents docs embedding (Some "shakespeare") = inr db ->
     Rag.similarity_search db Rag.query = inr []) ->
  let out := (docs ← Rag.cell_shakespeare; Rag.cell_manual_rag docs) s in
  (exists e, out.2 = inl e) /\
  stdout out.1 = stdout s /\
  (exists new, callees out.1 = callees s ++ new /\ "llm.invoke" ∉ new) /\
  (forall loader documents splitter docs embedding db,
     Rag.TextLoader "shakespeare.txt" = inr loader ->
     Rag.loader_load loader = inr documents ->
     Rag.RecursiveCharacterTextSplitter 1024 200 = inr splitter ->
     Rag.split_documents splitter documents = inr docs ->
     Rag.SentenceTransformerEmbeddings "all-MiniLM-L6-v2" = inr embedding ->
     Rag.Chroma_from_documents docs embedding (Some "shakespeare") = inr db ->
     out.2 = inl IndexError).
Proof.
  intros Hempty.
  change (wp (docs ← Rag.cell_shakespeare; Rag.cell_manual_rag docs)
            (fun s' r =>
               (exists e, r = inl e) /\
               stdout s' = stdout s /\
               (exists new, callees s' = callees s ++ new /\ "llm.invoke" ∉ new) /\
               (forall loader documents splitter docs embedding db,
                  Rag.TextLoader "shakespeare.txt" = inr loader ->
                  Rag.loader_load loader = inr documents ->
                  Rag.RecursiveCharacterTextSplitter 1024 200 = inr splitter ->
                  Rag.split_documents splitter documents = inr docs ->
                  Rag.SentenceTransformerEmbeddings "all-MiniLM-L6-v2" = inr embedding ->
                  Rag.Chroma_from_documents docs embedding (Some "shakespeare") = inr db ->
                  r = inl IndexError)) s).
  unfold Rag.cell_shakespeare.
  wp_steps.
  all: try match goal with
           | H : Rag.similarity_search ?db _ = _ |- _ =>
               let Hnone := fresh "Hnone" in
               assert (Rag.similarity_search db Rag.query = inr []) as Hnone
                 by (eapply Hempty; first [eassumption | reflexivity]);
               rewrite Hnone in H
           end.
  all: try congruence.
  all: split_and!; [eauto | done | | intros; congruence].
  all: unfold callees; cbn [calls]; rewrite ?fmap_app, <- ?app_assoc.
  all: eexists; split; [reflexivity | simpl; not_among].
Qed.

Lemma manual_rag_stops_on_empty_retrieval_witness :
  (@mbind NB _ _ _ (@Rag.cell_manual_rag (Replay.rag [] [] (fun _ => [])))
     (@Rag.cell_shakespeare (Replay.rag [] [] (fun _ => []))) (fresh ∅)).2
  = inl IndexError.
Proof.
  refine (proj2 (proj2 (proj2
            (@manual_rag_stops_on_empty_retrieval (Replay.rag [] [] (fun _ => []))
               (fresh ∅) _))) tt [] tt [] tt [] eq_refl eq_refl eq_refl eq_refl
            eq_refl eq_refl).
  intros loader documents splitter docs embedding db _ [= <-] _ [= <-] _ [= <-].
  reflexivity.
Defined.

(** X22: the cell that answers by hand uses of the retrieved documents only
    the text of the first: the other documents and the metadata of the first
    do not change its run. *)
Theorem manual_rag_uses_first_document_text `{W : Rag.World}
    (d1 d2 : document) (rest1 rest2 : list document) (s : nbstate) :
  page_content d1 = page_content d2 ->
  Rag.cell_manual_rag (d1 :: rest1) s = Rag.cell_manual_rag (d2 :: rest2) s.
Proof.
  intros Htext. unfold Rag.cell_manual_rag, first, mbind, nb_bind, mret, nb_ret.
  by rewrite Htext.
Qed.

Lemma manual_rag_uses_first_document_text_witness :
  @Rag.cell_manual_rag (Replay.rag [] [] (fun _ => []))
    [Document "MALCOLM." [("source", "shakespeare.txt")]; Document "MACDUFF." []] (fresh ∅)
  = @Rag.cell_manual_rag (Replay.rag [] [] (fun _ => [])) [Document "MALCOLM." []] (fresh ∅).
Proof. by apply manual_rag_uses_first_document_text. Defined.
